(** * Chimera Lay: the strategy service and the backtest engine

    A shallow embedding of [backend/app/services/strategy.py] and of the
    schemas of [backend/app/models/schemas.py] it works on.

    Numbers.  The service computes on Python floats.  Amounts, odds and
    percentages are embedded as exact rationals [Q]: every value is finite
    and [+], [-], [*], [/] carry no rounding error, so the only rounding
    left is the explicit [round(x, 2)] of the source.  A division whose
    divisor is a run-time value raises [ZeroDivisionError] on zero, as
    Python's float division does.  Equality of amounts is [Qeq], written
    [==].  Integer fields are [Z]. *)

From Stdlib Require Import QArith Qround Lqa Ascii String.
From stdpp Require Import gmap strings list fin_maps sorting pretty.

Local Open Scope Q_scope.

(** ** Exceptions and the result of a call *)

Inductive exn : Type :=
  | ZeroDivisionError
  | ValueError
  | TypeError
  | KeyError.

Inductive result (A : Type) : Type :=
  | Ok (a : A)
  | Raise (e : exn).
Arguments Ok {A} a.
Arguments Raise {A} e.

Global Instance result_ret : MRet result := fun A a => Ok a.
Global Instance result_bind : MBind result := fun A B k r =>
  match r with
  | Ok a => k a
  | Raise e => Raise e
  end.

Definition returns {A : Type} (r : result A) : Prop :=
  match r with Ok _ => True | Raise _ => False end.

(** ** Float operations of the interpreter *)

Definition Qltb (x y : Q) : bool := negb (Qle_bool y x).
Definition Qgtb (x y : Q) : bool := Qltb y x.

(** [x / y] on floats. *)
Definition py_div (x y : Q) : result Q :=
  if Qeq_bool y 0 then Raise ZeroDivisionError else Ok (x / y).

(** [max(a, b)]: the second argument only when it is strictly larger. *)
Definition py_max (a b : Q) : Q := if Qgtb b a then b else a.
Definition py_min (a b : Q) : Q := if Qltb b a then b else a.

(** [round(x)] to the nearest integer, ties to the even one. *)
Definition round_half_even (x : Q) : Z :=
  let f := Qfloor x in
  match Qcompare (x - inject_Z f) (1 # 2) with
  | Lt => f
  | Gt => (f + 1)%Z
  | Eq => if Z.even f then f else (f + 1)%Z
  end.

(** [round(x, 2)]. *)
Definition py_round2 (x : Q) : Q := inject_Z (round_half_even (x * 100)) / 100.

(** ** Schemas *)

Inductive RaceType : Type :=
  | FLAT | HURDLE | CHASE | NATIONAL_HUNT_FLAT | HUNTERS_CHASE.

Inductive GoingCondition : Type :=
  | FIRM | GOOD_TO_FIRM | GOOD | GOOD_TO_SOFT | SOFT | HEAVY | STANDARD | SLOW.

Inductive BetStatus : Type :=
  | PENDING | MATCHED | SETTLED | CANCELLED | VOIDED.

Inductive BetResult : Type :=
  | WON | LOST | VOID.

Global Instance RaceType_eq_dec : EqDecision RaceType.
Proof. solve_decision. Defined.
Global Instance GoingCondition_eq_dec : EqDecision GoingCondition.
Proof. solve_decision. Defined.
Global Instance BetResult_eq_dec : EqDecision BetResult.
Proof. solve_decision. Defined.

Definition RaceType_value (t : RaceType) : string :=
  match t with
  | FLAT => "flat"
  | HURDLE => "hurdle"
  | CHASE => "chase"
  | NATIONAL_HUNT_FLAT => "national_hunt_flat"
  | HUNTERS_CHASE => "hunters_chase"
  end.

Definition GoingCondition_value (g : GoingCondition) : string :=
  match g with
  | FIRM => "firm"
  | GOOD_TO_FIRM => "good_to_firm"
  | GOOD => "good"
  | GOOD_TO_SOFT => "good_to_soft"
  | SOFT => "soft"
  | HEAVY => "heavy"
  | STANDARD => "standard"
  | SLOW => "slow"
  end.

Definition GoingCondition_code (g : GoingCondition) : positive :=
  match g with
  | FIRM => 1 | GOOD_TO_FIRM => 2 | GOOD => 3 | GOOD_TO_SOFT => 4
  | SOFT => 5 | HEAVY => 6 | STANDARD => 7 | SLOW => 8
  end%positive.

Definition GoingCondition_of_code (p : positive) : option GoingCondition :=
  match p with
  | 1 => Some FIRM | 2 => Some GOOD_TO_FIRM | 3 => Some GOOD
  | 4 => Some GOOD_TO_SOFT | 5 => Some SOFT | 6 => Some HEAVY
  | 7 => Some STANDARD | 8 => Some SLOW | _ => None
  end%positive.

Global Instance GoingCondition_countable : Countable GoingCondition.
Proof.
  refine (Build_Countable _ _ GoingCondition_code GoingCondition_of_code _).
  intros []; reflexivity.
Defined.

(** The fields of [Race] and [Runner] the service reads.  Each schema is
    a module, so that fields keep their names: [Race.id], [Runner.id]. *)
Module Race.
Record t : Type := {
  id : string;
  race_time : string;
  race_date : string;
  race_type : RaceType;
  going : GoingCondition;
  number_of_runners : Z;
  track_direction : string;
  is_handicap : bool
}.
End Race.

Module Runner.
Record t : Type := {
  id : string;
  race_id : string;
  bsp_odds : option Q;
  is_favorite : bool
}.
End Runner.

Record StrategyRules : Type := {
  min_odds : Q;
  max_odds : Q;
  min_runners : Z;
  max_runners : Z;
  allowed_race_types : list RaceType;
  exclude_handicaps : bool;
  handicap_stake_multiplier : Q;
  going_adjustments : gmap GoingCondition Q;
  track_adjustments : gmap string Q;
  monthly_adjustments : gmap Z Q
}.

(** The [Field] constraints of [StrategyRules]. *)
Record StrategyRules_valid (rules : StrategyRules) : Prop := {
  min_odds_ge : 101 # 100 <= min_odds rules;
  max_odds_le : max_odds rules <= 20;
  min_runners_ge : (2 <= min_runners rules)%Z;
  max_runners_le : (max_runners rules <= 40)%Z;
  handicap_ge : 0 <= handicap_stake_multiplier rules;
  handicap_le : handicap_stake_multiplier rules <= 2
}.

Record StakeManagement : Type := {
  base_stake_percent : Q;
  max_liability_percent : Q;
  daily_loss_limit_percent : Q;
  weekly_loss_limit_percent : Q;
  use_kelly_criterion : bool;
  kelly_fraction : Q
}.

Record datetime : Type := {
  year : Z; month : Z; day : Z; hour : Z; minute : Z
}.

(** What the service takes from the Python runtime and from numpy:
    float formatting, [datetime.strptime] ([None] stands for its
    [ValueError]) and [numpy.sqrt]. *)
Class PyRuntime : Type := {
  format_2f : Q -> string;
  str_float : Q -> string;
  strptime : string -> string -> option datetime;
  np_sqrt : Q -> Q
}.

Module QualifyingRace.
Record t : Type := {
  race : Race.t;
  favorite : Runner.t;
  qualification_score : Q;
  adjusted_stake_multiplier : Q;
  suggested_stake : Q;
  suggested_liability : Q;
  reasons : list string
}.
End QualifyingRace.

(** ** String methods used by the reasons *)

Definition ascii_upper (a : ascii) : ascii :=
  let n := nat_of_ascii a in
  if (97 <=? n)%nat && (n <=? 122)%nat then ascii_of_nat (n - 32) else a.

Definition ascii_lower (a : ascii) : ascii :=
  let n := nat_of_ascii a in
  if (65 <=? n)%nat && (n <=? 90)%nat then ascii_of_nat (n + 32) else a.

Definition ascii_is_alpha (a : ascii) : bool :=
  let n := nat_of_ascii (ascii_lower a) in (97 <=? n)%nat && (n <=? 122)%nat.

(** [s.replace(x, y)] for single characters. *)
Fixpoint str_replace (x y : ascii) (s : string) : string :=
  match s with
  | EmptyString => EmptyString
  | String a s' => String (if Ascii.eqb a x then y else a) (str_replace x y s')
  end.

(** [s.title()]: a letter is upper-cased after a non-letter, lower-cased
    after a letter. *)
Fixpoint str_title_from (in_word : bool) (s : string) : string :=
  match s with
  | EmptyString => EmptyString
  | String a s' =>
      String (if in_word then ascii_lower a else ascii_upper a)
             (str_title_from (ascii_is_alpha a) s')
  end.
Definition str_title (s : string) : string := str_title_from false s.

(** ** StrategyService *)

Record StrategyService : Type := {
  rules : StrategyRules;
  stake_management : StakeManagement
}.

Section Service.
Context `{PyRuntime}.

(** One check of the evaluator: when it fails, its reason is appended and
    its penalty subtracted from the score. *)
Definition check_failed (failed : bool) (reason : string) (penalty : Q)
    (st : list string * Q) : list string * Q :=
  if failed then (st.1 ++ [reason], st.2 - penalty) else st.

(** The reasons recorded and the score reached by the checks of
    [check_race_qualification], for a favorite quoted at [odds]. *)
Definition run_checks (self : StrategyService) (race : Race.t) (odds : Q)
    : list string * Q :=
  let r := rules self in
  let st := ([], 100) in
  let st := check_failed (Qltb odds (min_odds r))
    ("Odds " +:+ format_2f odds +:+ " below minimum " +:+ str_float (min_odds r))
    30 st in
  let st := check_failed (Qgtb odds (max_odds r))
    ("Odds " +:+ format_2f odds +:+ " above maximum " +:+ str_float (max_odds r))
    30 st in
  let st := check_failed (Race.number_of_runners race <? min_runners r)%Z
    ("Only " +:+ pretty (Race.number_of_runners race) +:+ " runners (minimum: "
       +:+ pretty (min_runners r) +:+ ")")
    25 st in
  let st := check_failed (Race.number_of_runners race >? max_runners r)%Z
    (pretty (Race.number_of_runners race) +:+ " runners exceeds maximum of "
       +:+ pretty (max_runners r))
    15 st in
  let st := check_failed
    (negb (bool_decide (Race.race_type race ∈ allowed_race_types r)))
    ("Race type " +:+ RaceType_value (Race.race_type race) +:+ " not allowed")
    40 st in
  let st := check_failed (Race.is_handicap race && exclude_handicaps r)
    "Handicap races excluded"
    35 st in
  st.

(** The list [reasons] when [qualifies] is computed from its length. *)
Definition recorded_reasons (self : StrategyService) (race : Race.t)
    (favorite : Runner.t) : list string :=
  match Runner.bsp_odds favorite with
  | None => ["No BSP odds available"]
  | Some odds => (run_checks self race odds).1
  end.

(** The notes appended for a qualifying race. *)
Definition positive_notes (race : Race.t) : list string :=
  (if bool_decide (GoingCondition_value (Race.going race) ∈ ["soft"; "heavy"])
   then [str_title (str_replace "_" " " (GoingCondition_value (Race.going race)))
           +:+ " going (+20% stake)"]
   else [])
  ++ (if bool_decide (Race.track_direction race = "figure8")
      then ["Figure-8 track (+15% stake)"]
      else []).

Definition check_race_qualification (self : StrategyService) (race : Race.t)
    (favorite : Runner.t) : bool * list string * Q :=
  match Runner.bsp_odds favorite with
  | None => (false, ["No BSP odds available"], 0)
  | Some odds =>
      let '(reasons, score) := run_checks self race odds in
      let qualifies := (length reasons =? 0)%nat in
      let reasons :=
        if qualifies
        then (reasons ++ ["All criteria met"]) ++ positive_notes race
        else reasons in
      (qualifies, reasons, py_max 0 score)
  end.

Definition calculate_stake_multiplier (self : StrategyService) (race : Race.t)
    : result Q :=
  let r := rules self in
  let multiplier := 1 in
  let going_adj := default 1 (going_adjustments r !! Race.going race) in
  let multiplier := multiplier * going_adj in
  let multiplier :=
    match track_adjustments r !! Race.track_direction race with
    | Some track_adj => multiplier * track_adj
    | None => multiplier
    end in
  match strptime (Race.race_date race) "%Y-%m-%d" with
  | None => Raise ValueError
  | Some d =>
      let race_month := month d in
      let multiplier :=
        match monthly_adjustments r !! race_month with
        | Some month_adj => multiplier * month_adj
        | None => multiplier
        end in
      let multiplier :=
        if Race.is_handicap race && negb (exclude_handicaps r)
        then multiplier * handicap_stake_multiplier r
        else multiplier in
      Ok multiplier
  end.

Definition calculate_stake (self : StrategyService)
    (bankroll odds multiplier : Q) : result (Q * Q) :=
  let sm := stake_management self in
  let base_stake := bankroll * (base_stake_percent sm / 100) * multiplier in
  let liability := base_stake * (odds - 1) in
  let max_liability := bankroll * (max_liability_percent sm / 100) in
  if Qgtb liability max_liability
  then
    base_stake ← py_div max_liability (odds - 1);
    let liability := max_liability in
    Ok (py_round2 base_stake, py_round2 liability)
  else Ok (py_round2 base_stake, py_round2 liability).

Definition evaluate_race (self : StrategyService) (race : Race.t)
    (fav : Runner.t) (bankroll : Q) : result (option QualifyingRace.t) :=
  let '(qualifies, reasons, score) := check_race_qualification self race fav in
  if negb qualifies then Ok None
  else
    multiplier ← calculate_stake_multiplier self race;
    match Runner.bsp_odds fav with
    | None => Raise TypeError
    | Some odds =>
        '(stake, liability) ← calculate_stake self bankroll odds multiplier;
        Ok (Some {| QualifyingRace.race := race;
                    QualifyingRace.favorite := fav;
                    QualifyingRace.qualification_score := score;
                    QualifyingRace.adjusted_stake_multiplier := multiplier;
                    QualifyingRace.suggested_stake := stake;
                    QualifyingRace.suggested_liability := liability;
                    QualifyingRace.reasons := reasons |})
    end.

(** [simulate_bet_result], with the value [u] drawn by [random.random()]. *)
Definition simulate_bet_result (odds u : Q) : BetResult :=
  let base_lay_win_prob := 67 # 100 in
  let odds_adjustment := (odds - 2) * (2 # 100) in
  let lay_win_prob :=
    py_min (75 # 100) (py_max (55 # 100) (base_lay_win_prob + odds_adjustment)) in
  if Qltb u lay_win_prob then WON else LOST.

Definition calculate_profit_loss (stake liability : Q) (result : BetResult) : Q :=
  match result with
  | WON => stake
  | LOST => - liability
  | VOID => 0
  end.

End Service.

(** ** Records of the backtest *)

Module Bet.
Record t : Type := {
  id : string;
  race_id : string;
  runner_id : string;
  strategy_id : string;
  bet_type : string;
  odds : Q;
  stake : Q;
  liability : Q;
  status : BetStatus;
  result : option BetResult;
  profit_loss : Q;
  placed_at : datetime;
  settled_at : option datetime;
  race : option Race.t;
  runner : option Runner.t
}.
End Bet.

(** One entry of the dictionary [daily_results]. *)
Module Day.
Record t : Type := {
  bets : Z;
  won : Z;
  lost : Z;
  turnover : Q;
  liability : Q;
  profit_loss : Q
}.
Definition empty : t :=
  {| bets := 0; won := 0; lost := 0; turnover := 0; liability := 0;
     profit_loss := 0 |}.
End Day.

Module DailyPerformance.
Record t : Type := {
  date : string;
  total_bets : Z;
  won_bets : Z;
  lost_bets : Z;
  turnover : Q;
  liability : Q;
  profit_loss : Q;
  roi : Q;
  starting_bank : Q;
  ending_bank : Q
}.
End DailyPerformance.

Module StrategyPerformance.
Record t : Type := {
  strategy_id : string;
  total_bets : Z;
  won_bets : Z;
  lost_bets : Z;
  win_rate : Q;
  total_turnover : Q;
  total_liability : Q;
  total_profit_loss : Q;
  roi : Q;
  max_drawdown : Q;
  sharpe_ratio : Q;
  daily_performance : list DailyPerformance.t
}.
End StrategyPerformance.

(** ** Metrics *)

(** [sum(xs)], from the integer [0]. *)
Definition py_sum (xs : list Q) : Q := foldl Qplus 0 xs.

(** The loop of [calculate_max_drawdown]. *)
Fixpoint drawdown_loop (max_dd peak : Q) (values : list Q) : result Q :=
  match values with
  | [] => Ok max_dd
  | value :: rest =>
      let peak := if Qgtb value peak then value else peak in
      q ← py_div (peak - value) peak;
      let dd := q * 100 in
      let max_dd := if Qgtb dd max_dd then dd else max_dd in
      drawdown_loop max_dd peak rest
  end.

Definition calculate_max_drawdown (equity_curve : list Q) : result Q :=
  if (length equity_curve <? 2)%nat then Ok 0
  else
    match equity_curve with
    | [] => Ok 0
    | first :: _ =>
        max_dd ← drawdown_loop 0 first equity_curve;
        Ok (py_round2 max_dd)
    end.

(** [numpy.mean] and [numpy.std] (population deviation); numpy scalars
    do not raise on division. *)
Definition np_mean (xs : list Q) : Q := py_sum xs / inject_Z (Z.of_nat (length xs)).

Definition np_std `{PyRuntime} (xs : list Q) : Q :=
  let m := np_mean xs in
  np_sqrt (np_mean (map (fun x => (x - m) * (x - m)) xs)).

(** The list comprehension [b.profit_loss / b.stake for b in bets if b.stake > 0]. *)
Fixpoint bet_returns (bets : list Bet.t) : result (list Q) :=
  match bets with
  | [] => Ok []
  | b :: rest =>
      if Qgtb (Bet.stake b) 0
      then
        r ← py_div (Bet.profit_loss b) (Bet.stake b);
        rs ← bet_returns rest;
        Ok (r :: rs)
      else bet_returns rest
  end.

Definition calculate_sharpe_ratio `{PyRuntime} (bets : list Bet.t) : result Q :=
  if (length bets <? 2)%nat then Ok 0
  else
    returns ← bet_returns bets;
    if (length returns <? 2)%nat then Ok 0
    else
      let mean_return := np_mean returns in
      let std_return := np_std returns in
      if Qeq_bool std_return 0 then Ok 0
      else
        let annualization_factor := np_sqrt (7 * 300) in
        Ok (py_round2 ((mean_return / std_return) * annualization_factor)).

(** The equity curve of [run_backtest]: the running total after each bet. *)
Fixpoint equity_from (running_total : Q) (bets : list Bet.t) : list Q :=
  match bets with
  | [] => []
  | bet :: rest =>
      let running_total := running_total + Bet.profit_loss bet in
      running_total :: equity_from running_total rest
  end.

Definition equity_curve (initial_bankroll : Q) (bets : list Bet.t) : list Q :=
  initial_bankroll :: equity_from initial_bankroll bets.

(** [x / y * 100 if y > 0 else 0]. *)
Definition percent_of (x y : Q) : result Q :=
  if Qgtb y 0 then q ← py_div x y; Ok (q * 100) else Ok 0.

(** ** The backtest engine *)

(** [race_runners]: the runners of each race, in input order. *)
Definition group_runners (runners : list Runner.t) : gmap string (list Runner.t) :=
  foldl (fun race_runners runner =>
           <[Runner.race_id runner :=
               default [] (race_runners !! Runner.race_id runner) ++ [runner]]>
             race_runners)
        ∅ runners.

(** The variables the loop over [races] updates; [draws] counts the calls
    of [random.random()] made so far. *)
Record engine : Type := {
  bets : list Bet.t;
  daily_results : gmap string Day.t;
  bankroll : Q;
  draws : nat
}.

Definition record_day (daily_results : gmap string Day.t) (date : string)
    (stake liability profit_loss : Q) (result : BetResult) : gmap string Day.t :=
  let day := default Day.empty (daily_results !! date) in
  <[date :=
      {| Day.bets := Day.bets day + 1;
         Day.won := if decide (result = WON) then Day.won day + 1 else Day.won day;
         Day.lost := if decide (result = WON) then Day.lost day else Day.lost day + 1;
         Day.turnover := Day.turnover day + stake;
         Day.liability := Day.liability day + liability;
         Day.profit_loss := Day.profit_loss day + profit_loss |}]>
    daily_results.

Section Engine.
Context `{PyRuntime}.

(** The generator of [random.random()]: its [n]-th value. *)
Variable random : nat -> Q.

(** The favorite of a race, when the race has runners and one is flagged. *)
Definition find_favorite (race_runners : gmap string (list Runner.t))
    (race : Race.t) : option Runner.t :=
  match race_runners !! Race.id race with
  | None => None
  | Some race_runners_list =>
      head (filter (fun r => Runner.is_favorite r = true) race_runners_list)
  end.

(** One iteration of [for race in races]. *)
Definition backtest_race (service : StrategyService)
    (race_runners : gmap string (list Runner.t)) (st : engine) (race : Race.t)
    : result engine :=
  match find_favorite race_runners race with
  | None => Ok st
  | Some favorite =>
      qualifying_race ← evaluate_race service race favorite (bankroll st);
      match qualifying_race with
      | None => Ok st
      | Some qualifying_race =>
          match Runner.bsp_odds favorite with
          | None => Raise TypeError
          | Some odds =>
              let stake := QualifyingRace.suggested_stake qualifying_race in
              let liability := QualifyingRace.suggested_liability qualifying_race in
              let result := simulate_bet_result odds (random (draws st)) in
              let profit_loss := calculate_profit_loss stake liability result in
              match strptime (Race.race_date race +:+ " " +:+ Race.race_time race)
                             "%Y-%m-%d %H:%M" with
              | None => Raise ValueError
              | Some at_ =>
                  let bet :=
                    {| Bet.id := "bt_" +:+ pretty (Z.of_nat (length (bets st)) + 1)%Z;
                       Bet.race_id := Race.id race;
                       Bet.runner_id := Runner.id favorite;
                       Bet.strategy_id := "backtest";
                       Bet.bet_type := "lay";
                       Bet.odds := odds;
                       Bet.stake := stake;
                       Bet.liability := liability;
                       Bet.status := SETTLED;
                       Bet.result := Some result;
                       Bet.profit_loss := profit_loss;
                       Bet.placed_at := at_;
                       Bet.settled_at := Some at_;
                       Bet.race := Some race;
                       Bet.runner := Some favorite |} in
                  Ok {| bets := bets st ++ [bet];
                        daily_results :=
                          record_day (daily_results st) (Race.race_date race)
                                     stake liability profit_loss result;
                        bankroll := bankroll st + profit_loss;
                        draws := S (draws st) |}
              end
          end
      end
  end.

Fixpoint backtest_races (service : StrategyService)
    (race_runners : gmap string (list Runner.t)) (st : engine)
    (races : list Race.t) : result engine :=
  match races with
  | [] => Ok st
  | race :: rest =>
      st ← backtest_race service race_runners st race;
      backtest_races service race_runners st rest
  end.

(** [sorted(daily_results.keys())].  Strings are compared byte by byte,
    the order of Python on the code points of UTF-8 text. *)
Definition sorted_dates (daily_results : gmap string Day.t) : list string :=
  merge_sort String.le (elements (dom daily_results)).

(** The loop that builds [daily_performance]. *)
Fixpoint daily_loop (daily_results : gmap string Day.t) (running_bank : Q)
    (dates : list string) : result (list DailyPerformance.t) :=
  match dates with
  | [] => Ok []
  | date :: rest =>
      match daily_results !! date with
      | None => Raise KeyError
      | Some day =>
          let starting_bank := running_bank in
          let running_bank := running_bank + Day.profit_loss day in
          roi ← percent_of (Day.profit_loss day) (Day.turnover day);
          let entry :=
            {| DailyPerformance.date := date;
               DailyPerformance.total_bets := Day.bets day;
               DailyPerformance.won_bets := Day.won day;
               DailyPerformance.lost_bets := Day.lost day;
               DailyPerformance.turnover := Day.turnover day;
               DailyPerformance.liability := Day.liability day;
               DailyPerformance.profit_loss := Day.profit_loss day;
               DailyPerformance.roi := roi;
               DailyPerformance.starting_bank := starting_bank;
               DailyPerformance.ending_bank := running_bank |} in
          entries ← daily_loop daily_results running_bank rest;
          Ok (entry :: entries)
      end
  end.

(** The metrics computed after the loop, from its final variables. *)
Definition performance_of (initial_bankroll : Q) (st : engine)
    : result StrategyPerformance.t :=
  let total_bets := Z.of_nat (length (bets st)) in
  let won_bets :=
    Z.of_nat (length (filter (fun b => Bet.result b = Some WON) (bets st))) in
  let lost_bets := (total_bets - won_bets)%Z in
  let total_turnover := py_sum (map Bet.stake (bets st)) in
  let total_liability := py_sum (map Bet.liability (bets st)) in
  let total_pl := bankroll st - initial_bankroll in
  max_drawdown ← calculate_max_drawdown (equity_curve initial_bankroll (bets st));
  daily_performance ←
    daily_loop (daily_results st) initial_bankroll (sorted_dates (daily_results st));
  win_rate ← percent_of (inject_Z won_bets) (inject_Z total_bets);
  roi ← percent_of total_pl total_turnover;
  sharpe_ratio ← calculate_sharpe_ratio (bets st);
  Ok {| StrategyPerformance.strategy_id := "backtest";
        StrategyPerformance.total_bets := total_bets;
        StrategyPerformance.won_bets := won_bets;
        StrategyPerformance.lost_bets := lost_bets;
        StrategyPerformance.win_rate := win_rate;
        StrategyPerformance.total_turnover := total_turnover;
        StrategyPerformance.total_liability := total_liability;
        StrategyPerformance.total_profit_loss := total_pl;
        StrategyPerformance.roi := roi;
        StrategyPerformance.max_drawdown := max_drawdown;
        StrategyPerformance.sharpe_ratio := sharpe_ratio;
        StrategyPerformance.daily_performance := daily_performance |}.

Definition run_backtest (races : list Race.t) (runners : list Runner.t)
    (strategy_rules : StrategyRules) (stake_management : StakeManagement)
    (initial_bankroll : Q) : result (list Bet.t * StrategyPerformance.t) :=
  let service :=
    {| rules := strategy_rules; stake_management := stake_management |} in
  let st :=
    {| bets := []; daily_results := ∅; bankroll := initial_bankroll; draws := 0 |} in
  let race_runners := group_runners runners in
  st ← backtest_races service race_runners st races;
  performance ← performance_of initial_bankroll st;
  Ok (bets st, performance).

End Engine.

(** ** Notions of the statements *)

(** The four factors of the stake multiplier: the entries of the tables of
    the rules, 1 where a table has no entry, and the handicap multiplier. *)
Definition going_factor (r : StrategyRules) (race : Race.t) : Q :=
  default 1 (going_adjustments r !! Race.going race).
Definition track_factor (r : StrategyRules) (race : Race.t) : Q :=
  default 1 (track_adjustments r !! Race.track_direction race).
Definition month_factor (r : StrategyRules) (m : Z) : Q :=
  default 1 (monthly_adjustments r !! m).
Definition handicap_factor (r : StrategyRules) (race : Race.t) : Q :=
  if Race.is_handicap race && negb (exclude_handicaps r)
  then handicap_stake_multiplier r else 1.

(** The race has a flagged favorite and qualifies with it. *)
Definition race_qualifies `{PyRuntime} (service : StrategyService)
    (race_runners : gmap string (list Runner.t)) (race : Race.t) : bool :=
  match find_favorite race_runners race with
  | None => false
  | Some favorite => (check_race_qualification service race favorite).1.1
  end.

(** [s1 < s2] on strings. *)
Definition str_lt (s1 s2 : string) : Prop := String.ltb s1 s2 = true.

(** Each value of the curve is above the one before. *)
Definition strictly_increasing (curve : list Q) : Prop := Sorted Qlt curve.

(** The drawdowns as the specification words them: at each point of the
    curve, the fall from the running peak, in percent of that peak. *)
Fixpoint drawdowns_from (peak : Q) (values : list Q) : list Q :=
  match values with
  | [] => []
  | value :: rest =>
      let peak := py_max peak value in
      (peak - value) / peak * 100 :: drawdowns_from peak rest
  end.

Definition drawdowns (curve : list Q) : list Q :=
  match curve with
  | [] => []
  | first :: _ => drawdowns_from first curve
  end.

(** The entries chain from the bank [bank]: each starts where the one
    before ended, and ends at its start plus its profit or loss. *)
Fixpoint chained (bank : Q) (entries : list DailyPerformance.t) : Prop :=
  match entries with
  | [] => True
  | entry :: rest =>
      DailyPerformance.starting_bank entry = bank /\
      DailyPerformance.ending_bank entry
        = DailyPerformance.starting_bank entry + DailyPerformance.profit_loss entry /\
      chained (DailyPerformance.ending_bank entry) rest
  end.

(** The criteria of the rules, for a race whose favorite is quoted at
    [odds]. *)
Definition meets_criteria (r : StrategyRules) (race : Race.t) (odds : Q) : Prop :=
  min_odds r <= odds /\ odds <= max_odds r /\
  (min_runners r <= Race.number_of_runners race)%Z /\
  (Race.number_of_runners race <= max_runners r)%Z /\
  Race.race_type race ∈ allowed_race_types r /\
  (Race.is_handicap race && exclude_handicaps r = false).

(** The [Field] constraints of [StakeManagement]. *)
Record StakeManagement_valid (sm : StakeManagement) : Prop := {
  base_stake_ge : 1 # 100 <= base_stake_percent sm;
  base_stake_le : base_stake_percent sm <= 10;
  max_liability_ge : 1 # 10 <= max_liability_percent sm;
  max_liability_le : max_liability_percent sm <= 20
}.

(** The variables of the loop after the bet [bet] on [race] is settled
    with [result]. *)
Definition settle (st : engine) (race : Race.t) (bet : Bet.t)
    (result : BetResult) : engine :=
  {| bets := bets st ++ [bet];
     daily_results :=
       record_day (daily_results st) (Race.race_date race) (Bet.stake bet)
                  (Bet.liability bet) (Bet.profit_loss bet) result;
     bankroll := bankroll st + Bet.profit_loss bet;
     draws := S (draws st) |}.

(** A settled lay bet as the engine records it under the rules [r]: won
    for its stake or lost for its liability, at odds within the band of
    the rules. *)
Definition settled_bet (r : StrategyRules) (bet : Bet.t) : Prop :=
  Bet.status bet = SETTLED /\
  Bet.bet_type bet = "lay" /\
  Bet.strategy_id bet = "backtest" /\
  Bet.settled_at bet = Some (Bet.placed_at bet) /\
  min_odds r <= Bet.odds bet /\ Bet.odds bet <= max_odds r /\
  ((Bet.result bet = Some WON /\ Bet.profit_loss bet = Bet.stake bet) \/
   (Bet.result bet = Some LOST /\ Bet.profit_loss bet = - Bet.liability bet)).

(** The bets placed on the races of the date [date]. *)
Definition bets_on (date : string) (bets : list Bet.t) : list Bet.t :=
  filter (fun b => Race.race_date <$> Bet.race b = Some date) bets.

(** The entry [day] of [daily_results] aggregates the bets [day_bets]. *)
Definition aggregates (day : Day.t) (day_bets : list Bet.t) : Prop :=
  day_bets <> [] /\
  Day.bets day = Z.of_nat (length day_bets) /\
  Day.won day
    = Z.of_nat (length (filter (fun b => Bet.result b = Some WON) day_bets)) /\
  (Day.won day + Day.lost day = Day.bets day)%Z /\
  Day.turnover day == py_sum (map Bet.stake day_bets) /\
  Day.liability day == py_sum (map Bet.liability day_bets) /\
  Day.profit_loss day == py_sum (map Bet.profit_loss day_bets).

(** No entry of the three tables of the rules is negative. *)
Definition adjustments_nonneg (r : StrategyRules) : Prop :=
  map_Forall (fun _ v => 0 <= v) (going_adjustments r) /\
  map_Forall (fun _ v => 0 <= v) (track_adjustments r) /\
  map_Forall (fun _ v => 0 <= v) (monthly_adjustments r).

(** The bankroll after the bets [bets], from the bankroll [bank]. *)
Definition running_total (bank : Q) (bets : list Bet.t) : Q :=
  foldl (fun total bet => total + Bet.profit_loss bet) bank bets.

(** ** A runtime and inputs for the examples *)

Module Example.

Definition two_digits (n : Z) : string :=
  if (n <? 10)%Z then "0" +:+ pretty n else pretty n.

(** [f"{x:.2f}"]. *)
Definition format_2f (x : Q) : string :=
  let cents := round_half_even (x * 100) in
  (if (cents <? 0)%Z then "-" else "")
    +:+ pretty (Z.abs cents / 100)%Z +:+ "." +:+ two_digits (Z.abs cents mod 100)%Z.

(** [str(x)] of a float with at most two decimals. *)
Definition str_float (x : Q) : string :=
  let cents := round_half_even (x * 100) in
  (if (cents <? 0)%Z then "-" else "")
    +:+ pretty (Z.abs cents / 100)%Z +:+ "."
    +:+ (if (Z.abs cents mod 10 =? 0)%Z
         then pretty (Z.abs cents mod 100 / 10)%Z
         else two_digits (Z.abs cents mod 100)%Z).

Definition digit_of (a : ascii) : option Z :=
  let n := Z.of_nat (nat_of_ascii a) in
  if (48 <=? n)%Z && (n <=? 57)%Z then Some (n - 48)%Z else None.

(** Reads exactly [n] decimal digits. *)
Fixpoint read_digits (n : nat) (acc : Z) (s : string) : option (Z * string) :=
  match n with
  | O => Some (acc, s)
  | S n' =>
      match s with
      | EmptyString => None
      | String a s' =>
          match digit_of a with
          | None => None
          | Some d => read_digits n' (10 * acc + d)%Z s'
          end
      end
  end.

Definition expect (c : ascii) (s : string) : option string :=
  match s with
  | String a s' => if Ascii.eqb a c then Some s' else None
  | EmptyString => None
  end.

Definition in_range (lo hi x : Z) : bool := (lo <=? x)%Z && (x <=? hi)%Z.

(** [datetime.strptime] on zero-padded input, for the two formats of the
    engine. *)
Definition strptime (s fmt : string) : option datetime :=
  '(y, s) ← read_digits 4 0 s;
  s ← expect "-" s;
  '(m, s) ← read_digits 2 0 s;
  s ← expect "-" s;
  '(d, s) ← read_digits 2 0 s;
  if negb (in_range 1 12 m && in_range 1 31 d) then None
  else if String.eqb fmt "%Y-%m-%d" then
    if String.eqb s "" then
      Some {| year := y; month := m; day := d; hour := 0; minute := 0 |}
    else None
  else if String.eqb fmt "%Y-%m-%d %H:%M" then
    s ← expect " " s;
    '(h, s) ← read_digits 2 0 s;
    s ← expect ":" s;
    '(mi, s) ← read_digits 2 0 s;
    if String.eqb s "" && in_range 0 23 h && in_range 0 59 mi then
      Some {| year := y; month := m; day := d; hour := h; minute := mi |}
    else None
  else None.

(** A square root to six decimals. *)
Definition np_sqrt (x : Q) : Q :=
  inject_Z (Z.sqrt (Qnum x * Zpos (Qden x) * 10 ^ 12))
    / inject_Z (Zpos (Qden x) * 10 ^ 6).

Definition runtime : PyRuntime :=
  Build_PyRuntime format_2f str_float strptime np_sqrt.

(** [StrategyRules()] and [StakeManagement()]: the defaults of the schemas. *)
Definition default_rules : StrategyRules :=
  {| min_odds := 2;
     max_odds := 45 # 10;
     min_runners := 6;
     max_runners := 20;
     allowed_race_types := [FLAT; HURDLE; CHASE; NATIONAL_HUNT_FLAT];
     exclude_handicaps := false;
     handicap_stake_multiplier := 7 # 10;
     going_adjustments :=
       <[FIRM := 8 # 10]> (<[GOOD_TO_FIRM := 9 # 10]> (<[GOOD := 1]>
       (<[GOOD_TO_SOFT := 1]> (<[SOFT := 12 # 10]> (<[HEAVY := 12 # 10]>
       (<[STANDARD := 1]> (<[SLOW := 1]> ∅)))))));
     track_adjustments := <["figure8" := 115 # 100]> ∅;
     monthly_adjustments :=
       <[1%Z := 9 # 10]> (<[2%Z := 9 # 10]> (<[3%Z := 9 # 10]>
       (<[12%Z := 85 # 100]> ∅))) |}.

Definition default_stake_management : StakeManagement :=
  {| base_stake_percent := 5 # 10;
     max_liability_percent := 2;
     daily_loss_limit_percent := 5;
     weekly_loss_limit_percent := 10;
     use_kelly_criterion := true;
     kelly_fraction := 25 # 100 |}.

Definition service : StrategyService :=
  {| rules := default_rules; stake_management := default_stake_management |}.

(** A flat race of eight runners on good ground in June, and its favorite
    quoted at 3.0. *)
Definition race1 : Race.t :=
  {| Race.id := "r1";
     Race.race_time := "14:30";
     Race.race_date := "2024-06-15";
     Race.race_type := FLAT;
     Race.going := GOOD;
     Race.number_of_runners := 8;
     Race.track_direction := "left";
     Race.is_handicap := false |}.

Definition favorite1 : Runner.t :=
  {| Runner.id := "h1";
     Runner.race_id := "r1";
     Runner.bsp_odds := Some 3;
     Runner.is_favorite := true |}.

(** A second race, a day earlier, and its favorite. *)
Definition race2 : Race.t :=
  {| Race.id := "r2";
     Race.race_time := "15:00";
     Race.race_date := "2024-06-14";
     Race.race_type := HURDLE;
     Race.going := SOFT;
     Race.number_of_runners := 10;
     Race.track_direction := "figure8";
     Race.is_handicap := true |}.

Definition favorite2 : Runner.t :=
  {| Runner.id := "h2";
     Runner.race_id := "r2";
     Runner.bsp_odds := Some (25 # 10);
     Runner.is_favorite := true |}.

(** A favorite without a starting price. *)
Definition unquoted : Runner.t :=
  {| Runner.id := "h3";
     Runner.race_id := "r1";
     Runner.bsp_odds := None;
     Runner.is_favorite := true |}.

(** A generator that always draws 0.5: every lay bet is won. *)
Definition random (n : nat) : Q := 1 # 2.

(** The first race again, its date written day first. *)
Definition race1_day_first : Race.t :=
  {| Race.id := "r1";
     Race.race_time := "14:30";
     Race.race_date := "15/06/2024";
     Race.race_type := FLAT;
     Race.going := GOOD;
     Race.number_of_runners := 8;
     Race.track_direction := "left";
     Race.is_handicap := false |}.

(** A backtest of the two races, from a bankroll of 100000. *)
Definition run : result (list Bet.t * StrategyPerformance.t) :=
  @run_backtest runtime random [race1; race2] [favorite1; favorite2]
    default_rules default_stake_management 100000.

End Example.

(** * Properties *)

(** ** Comparisons, division and rounding *)

Lemma Qltb_true x y : Qltb x y = true <-> x < y.
Proof.
  unfold Qltb. rewrite negb_true_iff.
  split.
  - intros Hb. apply Qnot_le_lt. intros Hle.
    apply Qle_bool_iff in Hle. congruence.
  - intros Hlt. destruct (Qle_bool y x) eqn:Hb; [|reflexivity].
    apply Qle_bool_iff in Hb. lra.
Qed.

Lemma Qltb_false x y : Qltb x y = false <-> y <= x.
Proof.
  unfold Qltb. rewrite negb_false_iff. apply Qle_bool_iff.
Qed.

Lemma Qgtb_true x y : Qgtb x y = true <-> y < x.
Proof. apply Qltb_true. Qed.

Lemma Qgtb_false x y : Qgtb x y = false <-> x <= y.
Proof. apply Qltb_false. Qed.

Lemma py_div_nonzero x y : ~ y == 0 -> py_div x y = Ok (x / y).
Proof.
  intros Hy. unfold py_div.
  destruct (Qeq_bool y 0) eqn:Hb; [|reflexivity].
  apply Qeq_bool_iff in Hb. contradiction.
Qed.

Lemma py_div_zero x y : y == 0 -> py_div x y = Raise ZeroDivisionError.
Proof.
  intros Hy. unfold py_div. apply Qeq_bool_iff in Hy. now rewrite Hy.
Qed.

(** Rounding to the nearest integer moves a number by at most a half. *)
Lemma round_half_even_close x :
  x - (1 # 2) <= inject_Z (round_half_even x) /\
  inject_Z (round_half_even x) <= x + (1 # 2).
Proof.
  unfold round_half_even.
  pose proof (Qfloor_le x) as Hlo.
  pose proof (Qlt_floor x) as Hhi.
  rewrite inject_Z_plus in Hhi. change (inject_Z 1) with 1 in Hhi.
  destruct (Qcompare_spec (x - inject_Z (Qfloor x)) (1 # 2)) as [He|Hl|Hg].
  - destruct (Z.even (Qfloor x)).
    + lra.
    + rewrite inject_Z_plus. change (inject_Z 1) with 1. lra.
  - lra.
  - rewrite inject_Z_plus. change (inject_Z 1) with 1. lra.
Qed.

(** Rounding does not depend on the fraction that represents a number. *)
Lemma round_half_even_comp x y : x == y -> round_half_even x = round_half_even y.
Proof.
  intros Hxy. unfold round_half_even.
  rewrite (Qfloor_comp x y Hxy).
  assert (Hc : Qcompare (x - inject_Z (Qfloor y)) (1 # 2)
               = Qcompare (y - inject_Z (Qfloor y)) (1 # 2)).
  { apply Qcompare_comp; [rewrite Hxy|]; reflexivity. }
  rewrite Hc. reflexivity.
Qed.

Lemma py_round2_comp x y : x == y -> py_round2 x = py_round2 y.
Proof.
  intros Hxy. unfold py_round2.
  rewrite (round_half_even_comp (x * 100) (y * 100)); [reflexivity|].
  rewrite Hxy. reflexivity.
Qed.

(** [round(x, 2)] moves a number by at most half a hundredth. *)
Lemma py_round2_close x :
  x - (1 # 200) <= py_round2 x /\ py_round2 x <= x + (1 # 200).
Proof.
  unfold py_round2.
  destruct (round_half_even_close (x * 100)) as [Hlo Hhi].
  set (r := inject_Z (round_half_even (x * 100))) in *.
  split.
  - apply Qle_shift_div_l; lra.
  - apply Qle_shift_div_r; lra.
Qed.

(** ** Stake sizing *)

Section StakeSizing.
Variable self : StrategyService.
Variables bankroll odds multiplier : Q.

Let sm := stake_management self.
Let uncapped_stake := bankroll * (base_stake_percent sm / 100) * multiplier.
Let uncapped_liability := uncapped_stake * (odds - 1).
Let max_liability := bankroll * (max_liability_percent sm / 100).

(** C1. For odds above 1 the sizing returns a pair whose liability is at
    most the ceiling [bankroll * max_liability_percent / 100] plus the half
    hundredth of the rounding; and when the uncapped liability exceeds the
    ceiling, the stake is [round(max_liability / (odds - 1), 2)] and the
    liability [round(max_liability, 2)]. *)
Theorem calculate_stake_within_ceiling :
  1 < odds ->
  exists stake liability,
    calculate_stake self bankroll odds multiplier = Ok (stake, liability) /\
    liability <= bankroll * (max_liability_percent sm / 100) + (1 # 200) /\
    (max_liability < uncapped_liability ->
       stake = py_round2 (max_liability / (odds - 1)) /\
       liability = py_round2 max_liability).
Proof.
  intros Hodds. unfold calculate_stake.
  fold sm. fold uncapped_stake. fold uncapped_liability. fold max_liability.
  destruct (Qgtb uncapped_liability max_liability) eqn:Hcap.
  - rewrite py_div_nonzero by lra. cbn.
    eexists _, _. split; [reflexivity|]. split.
    + apply (py_round2_close max_liability).
    + intros _. split; reflexivity.
  - apply Qgtb_false in Hcap.
    eexists _, _. split; [reflexivity|]. split.
    + pose proof (py_round2_close uncapped_liability) as [_ Hhi].
      fold max_liability. lra.
    + intros Hgt. lra.
Qed.

(** C4, as the code has it.  The sizing never checks its odds.  With odds
    of at most 1 it raises only in the clamp, at odds 1 under a negative
    ceiling, and then [ZeroDivisionError]; in every other case it returns a
    pair, whose liability is the rounded [stake * (odds - 1)]. *)
Theorem calculate_stake_low_odds :
  odds <= 1 ->
  (odds == 1 /\ max_liability < 0 ->
     calculate_stake self bankroll odds multiplier = Raise ZeroDivisionError) /\
  (~ (odds == 1 /\ max_liability < 0) ->
     returns (calculate_stake self bankroll odds multiplier)) /\
  (0 <= max_liability -> 0 <= uncapped_stake ->
     calculate_stake self bankroll odds multiplier
       = Ok (py_round2 uncapped_stake, py_round2 uncapped_liability)).
Proof.
  intros Hodds. unfold calculate_stake.
  fold sm. fold uncapped_stake. fold uncapped_liability. fold max_liability.
  repeat split.
  - intros [H1 Hneg].
    assert (Hcap : Qgtb uncapped_liability max_liability = true).
    { apply Qgtb_true. unfold uncapped_liability. rewrite H1. lra. }
    rewrite Hcap, py_div_zero by lra. reflexivity.
  - intros Hno.
    destruct (Qgtb uncapped_liability max_liability) eqn:Hcap; [|exact I].
    apply Qgtb_true in Hcap.
    assert (Hne : ~ odds - 1 == 0).
    { intros H0. apply Hno. split; [lra|].
      unfold uncapped_liability in Hcap. rewrite H0 in Hcap. lra. }
    rewrite py_div_nonzero by exact Hne. exact I.
  - intros Hmax Hstake.
    assert (Hcap : Qgtb uncapped_liability max_liability = false).
    { apply Qgtb_false. unfold uncapped_liability.
      pose proof (Qmult_le_0_compat uncapped_stake (1 - odds) Hstake) as Hprod.
      assert (Hge : 0 <= 1 - odds) by lra. specialize (Hprod Hge).
      assert (Heq : uncapped_stake * (odds - 1) == - (uncapped_stake * (1 - odds)))
        by ring.
      lra. }
    rewrite Hcap. reflexivity.
Qed.

End StakeSizing.

(** The statement of C1 holds at a concrete input. *)
Lemma calculate_stake_within_ceiling_witness :
  1 < 3 /\
  exists stake liability,
    calculate_stake Example.service 100000 3 1 = Ok (stake, liability) /\
    liability <= 100000 * (max_liability_percent Example.default_stake_management / 100)
                 + (1 # 200) /\
    (100000 * (max_liability_percent Example.default_stake_management / 100)
       < 100000 * (base_stake_percent Example.default_stake_management / 100) * 1 * (3 - 1) ->
       stake = py_round2 (100000 * (max_liability_percent Example.default_stake_management / 100) / (3 - 1)) /\
       liability = py_round2 (100000 * (max_liability_percent Example.default_stake_management / 100))).
Proof.
  split; [reflexivity|].
  apply (calculate_stake_within_ceiling Example.service 100000 3 1).
  reflexivity.
Defined.

(** C4 fails as stated: at odds 1 and a bankroll of 1000 the default
    service returns the pair (5.00, 0.00). *)
Lemma calculate_stake_odds_one_returns :
  (1 : Q) <= 1 /\
  calculate_stake Example.service 1000 1 1 = Ok (500 # 100, 0 # 100).
Proof. split; [discriminate | reflexivity]. Qed.

Lemma calculate_stake_low_odds_witness :
  (1 # 2 : Q) <= 1 /\
  returns (calculate_stake Example.service 1000 (1 # 2) 1).
Proof.
  split; [discriminate|].
  apply (calculate_stake_low_odds Example.service 1000 (1 # 2) 1).
  - discriminate.
  - intros [Hone _]. discriminate Hone.
Defined.

(** ** The qualification evaluator *)

Section Qualification.
Context `{PyRuntime}.
Variable self : StrategyService.
Variable race : Race.t.

Lemma check_failed_reasons failed reason penalty st :
  (check_failed failed reason penalty st).1 = [] -> failed = false /\ st.1 = [].
Proof.
  destruct failed; cbn.
  - intros Happ. destruct (st.1); discriminate Happ.
  - auto.
Qed.

Lemma check_failed_passed reason penalty st :
  check_failed false reason penalty st = st.
Proof. reflexivity. Qed.

(** With no reason recorded, no check has failed and the score is the
    initial 100. *)
Lemma run_checks_clean odds :
  (run_checks self race odds).1 = [] -> run_checks self race odds = ([], 100).
Proof.
  unfold run_checks. intros Hnil.
  repeat match type of Hnil with
  | (check_failed ?b ?r ?p ?st).1 = [] =>
      let Hb := fresh "Hb" in
      destruct (check_failed_reasons b r p st Hnil) as [Hb Hnil'];
      rewrite Hb; rewrite check_failed_passed;
      clear Hnil; rename Hnil' into Hnil
  end.
  reflexivity.
Qed.

(** What the evaluator returns for a quoted favorite, by the reasons its
    checks recorded. *)
Lemma check_race_qualification_quoted favorite odds :
  Runner.bsp_odds favorite = Some odds ->
  ((run_checks self race odds).1 = [] /\
   check_race_qualification self race favorite
     = (true, "All criteria met" :: positive_notes race, 100)) \/
  ((run_checks self race odds).1 <> [] /\
   (check_race_qualification self race favorite).1.1 = false).
Proof.
  intros Hodds. unfold check_race_qualification. rewrite Hodds.
  destruct (run_checks self race odds) as [reasons score] eqn:Hrun.
  destruct reasons as [|r rs].
  - left. split; [reflexivity|].
    pose proof (run_checks_clean odds) as Hc. rewrite Hrun in Hc.
    specialize (Hc eq_refl). injection Hc as ->. reflexivity.
  - right. split; [discriminate | reflexivity].
Qed.

(** A qualifying favorite has odds, at least the minimum of the rules. *)
Lemma qualifies_odds favorite :
  (check_race_qualification self race favorite).1.1 = true ->
  exists odds,
    Runner.bsp_odds favorite = Some odds /\ min_odds (rules self) <= odds /\
    check_race_qualification self race favorite
      = (true, "All criteria met" :: positive_notes race, 100).
Proof.
  intros Hq.
  destruct (Runner.bsp_odds favorite) as [odds|] eqn:Hodds.
  2: { unfold check_race_qualification in Hq. rewrite Hodds in Hq.
       discriminate Hq. }
  exists odds. split; [reflexivity|].
  destruct (check_race_qualification_quoted favorite odds Hodds)
    as [[Hnil Heq]|[_ Hno]]; [|congruence].
  split; [|exact Heq].
  unfold run_checks in Hnil.
  repeat match type of Hnil with
  | (check_failed ?b ?r ?p ?st).1 = [] =>
      let Hb := fresh "Hb" in
      destruct (check_failed_reasons b r p st Hnil) as [Hb Hnil'];
      clear Hnil; rename Hnil' into Hnil
  end.
  match goal with
  | Hb : Qltb odds _ = false |- _ => apply Qltb_false in Hb; exact Hb
  end.
Qed.

(** C3. A favorite without odds never qualifies: the score is 0 and the
    only reason is "No BSP odds available", whatever the race and the
    rules. *)
Theorem no_odds_is_terminal favorite :
  Runner.bsp_odds favorite = None ->
  check_race_qualification self race favorite
    = (false, ["No BSP odds available"], 0).
Proof.
  intros Hnone. unfold check_race_qualification. now rewrite Hnone.
Qed.

(** C2. The race qualifies exactly when no reason was recorded by the
    checks; a qualifying race has score 100 and "All criteria met" as its
    first reason. *)
Theorem qualifies_iff_no_reason favorite :
  ((check_race_qualification self race favorite).1.1 = true
     <-> recorded_reasons self race favorite = []) /\
  ((check_race_qualification self race favorite).1.1 = true ->
     (check_race_qualification self race favorite).2 = 100 /\
     head (check_race_qualification self race favorite).1.2
       = Some "All criteria met").
Proof.
  unfold recorded_reasons.
  destruct (Runner.bsp_odds favorite) as [odds|] eqn:Hodds.
  - destruct (check_race_qualification_quoted favorite odds Hodds)
      as [[Hnil Heq]|[Hcons Hno]].
    + rewrite Heq. cbn. repeat split; auto.
    + rewrite Hno. repeat split; try discriminate. intros Hnil. contradiction.
  - unfold check_race_qualification. rewrite Hodds. cbn.
    repeat split; discriminate.
Qed.

End Qualification.

(** The statement of C3 holds at a concrete input. *)
Lemma no_odds_is_terminal_witness :
  Runner.bsp_odds Example.unquoted = None /\
  @check_race_qualification Example.runtime Example.service Example.race1
     Example.unquoted
    = (false, ["No BSP odds available"], 0).
Proof.
  split; [reflexivity|].
  apply (@no_odds_is_terminal Example.runtime). reflexivity.
Defined.

(** ** The stake multiplier *)

Section Multiplier.
Context `{PyRuntime}.
Variable self : StrategyService.
Variable race : Race.t.

(** C6, as the code has it.  When the date of the race parses, the
    multiplier is the product of the four factors, each 1 by default; it
    is positive when the four factors are.  When the date does not parse,
    [ValueError] is raised. *)
Theorem calculate_stake_multiplier_product :
  match strptime (Race.race_date race) "%Y-%m-%d" with
  | Some d =>
      exists m,
        calculate_stake_multiplier self race = Ok m /\
        m == going_factor (rules self) race * track_factor (rules self) race
               * month_factor (rules self) (month d)
               * handicap_factor (rules self) race /\
        (0 < going_factor (rules self) race ->
         0 < track_factor (rules self) race ->
         0 < month_factor (rules self) (month d) ->
         0 < handicap_factor (rules self) race -> 0 < m)
  | None => calculate_stake_multiplier self race = Raise ValueError
  end.
Proof.
  unfold calculate_stake_multiplier.
  destruct (strptime (Race.race_date race) "%Y-%m-%d") as [d|]; [|reflexivity].
  eexists. split; [reflexivity|].
  unfold going_factor, track_factor, month_factor, handicap_factor.
  set (g := default 1 (going_adjustments (rules self) !! Race.going race)).
  set (h := handicap_stake_multiplier (rules self)).
  destruct (track_adjustments (rules self) !! Race.track_direction race) as [t|];
    destruct (monthly_adjustments (rules self) !! month d) as [mo|];
    destruct (Race.is_handicap race && negb (exclude_handicaps (rules self)));
    cbn [from_option id]; (split; [ring|]); intros Hg Ht Hmo Hh;
    repeat apply Qmult_lt_0_compat; auto; lra.
Qed.

End Multiplier.

(** C6 fails as stated: a handicap race under rules whose
    [handicap_stake_multiplier] is 0, a value the schema admits, has
    multiplier 0. *)
Lemma calculate_stake_multiplier_zero :
  let zero_handicap :=
    {| min_odds := 2; max_odds := 45 # 10; min_runners := 6; max_runners := 20;
       allowed_race_types := [FLAT; HURDLE];
       exclude_handicaps := false;
       handicap_stake_multiplier := 0;
       going_adjustments := ∅; track_adjustments := ∅;
       monthly_adjustments := ∅ |} in
  StrategyRules_valid zero_handicap /\
  exists m,
    @calculate_stake_multiplier Example.runtime
       {| rules := zero_handicap;
          stake_management := Example.default_stake_management |}
       Example.race2 = Ok m /\
    ~ 0 < m.
Proof.
  split.
  - split; cbn; try lia; discriminate.
  - eexists. split; [vm_compute; reflexivity|]. intros Hlt. discriminate Hlt.
Qed.

(** ** The sizing path of the engine *)

Lemma calculate_stake_returns self bankroll odds multiplier :
  1 < odds -> returns (calculate_stake self bankroll odds multiplier).
Proof.
  intros Hodds. unfold calculate_stake.
  destruct (Qgtb _ _); [|exact I].
  rewrite py_div_nonzero by lra. exact I.
Qed.

(** Inversion of [x ← r; k] when the whole returns. *)
Ltac bind_inv H :=
  match type of H with
  | mbind _ ?r = Ok _ =>
      let E := fresh "E" in
      destruct r eqn:E; [|discriminate H]; cbn [mbind result_bind] in H
  end.

Section SizingPath.
Context `{PyRuntime}.
Variable random : nat -> Q.
Variable self : StrategyService.
Hypothesis rules_valid : StrategyRules_valid (rules self).

(** [evaluate_race] either stops before the sizing, the race not
    qualifying, or sizes the stake at odds above 1. *)
Lemma evaluate_race_sizing race fav bankroll :
  ((check_race_qualification self race fav).1.1 = false /\
   evaluate_race self race fav bankroll = Ok None) \/
  (exists odds,
     (check_race_qualification self race fav).1.1 = true /\
     Runner.bsp_odds fav = Some odds /\ 1 < odds /\
     evaluate_race self race fav bankroll
       = (multiplier ← calculate_stake_multiplier self race;
          '(stake, liability) ← calculate_stake self bankroll odds multiplier;
          Ok (Some {| QualifyingRace.race := race;
                      QualifyingRace.favorite := fav;
                      QualifyingRace.qualification_score := 100;
                      QualifyingRace.adjusted_stake_multiplier := multiplier;
                      QualifyingRace.suggested_stake := stake;
                      QualifyingRace.suggested_liability := liability;
                      QualifyingRace.reasons :=
                        "All criteria met" :: positive_notes race |}))).
Proof.
  destruct ((check_race_qualification self race fav).1.1) eqn:Hq.
  - right. destruct (qualifies_odds self race fav Hq) as (odds & Hodds & Hmin & Heq).
    exists odds. split; [reflexivity|]. split; [exact Hodds|]. split.
    + pose proof (min_odds_ge _ rules_valid). lra.
    + unfold evaluate_race. rewrite Heq, Hodds. reflexivity.
  - left. split; [reflexivity|].
    unfold evaluate_race.
    destruct (check_race_qualification self race fav) as [[q rs] sc].
    cbn in Hq. subst q. reflexivity.
Qed.

Lemma evaluate_race_no_zero_division race fav bankroll :
  evaluate_race self race fav bankroll <> Raise ZeroDivisionError.
Proof.
  destruct (evaluate_race_sizing race fav bankroll)
    as [[_ ->]|(odds & _ & _ & Hodds & ->)]; [discriminate|].
  unfold calculate_stake_multiplier.
  destruct (strptime _ _); [|discriminate]. cbn.
  pose proof (calculate_stake_returns self bankroll odds) as Hret.
  match goal with
  | |- context [calculate_stake self bankroll odds ?m] =>
      specialize (Hret m Hodds);
      destruct (calculate_stake self bankroll odds m) as [[s l]|e]
  end; [discriminate | contradiction].
Qed.

Lemma backtest_race_no_zero_division race_runners st race :
  backtest_race random self race_runners st race <> Raise ZeroDivisionError.
Proof.
  unfold backtest_race.
  destruct (find_favorite race_runners race) as [fav|]; [|discriminate].
  pose proof (evaluate_race_no_zero_division race fav (bankroll st)) as Hev.
  destruct (evaluate_race self race fav (bankroll st)) as [[q|]|e]; cbn.
  - destruct (Runner.bsp_odds fav); [|discriminate].
    destruct (strptime _ _); discriminate.
  - discriminate.
  - congruence.
Qed.

Lemma backtest_races_no_zero_division race_runners races : forall st,
  backtest_races random self race_runners st races <> Raise ZeroDivisionError.
Proof.
  induction races as [|race rest IH]; intros st; cbn; [discriminate|].
  pose proof (backtest_race_no_zero_division race_runners st race) as Hstep.
  destruct (backtest_race random self race_runners st race) as [st'|e]; cbn.
  - apply IH.
  - congruence.
Qed.

(** C10. Under rules that satisfy their schema, [evaluate_race] reaches
    the sizing only for a qualifying favorite, whose odds are above 1, so
    that the sizing returns; and the loop of the engine never raises
    [ZeroDivisionError]. *)
Theorem sizing_only_above_one race fav bankroll :
  (((check_race_qualification self race fav).1.1 = false /\
    evaluate_race self race fav bankroll = Ok None) \/
   (exists odds,
      (check_race_qualification self race fav).1.1 = true /\
      Runner.bsp_odds fav = Some odds /\
      min_odds (rules self) <= odds /\ 1 < odds /\
      (forall multiplier,
         returns (calculate_stake self bankroll odds multiplier)) /\
      evaluate_race self race fav bankroll
        = (multiplier ← calculate_stake_multiplier self race;
           '(stake, liability) ← calculate_stake self bankroll odds multiplier;
           Ok (Some {| QualifyingRace.race := race;
                       QualifyingRace.favorite := fav;
                       QualifyingRace.qualification_score := 100;
                       QualifyingRace.adjusted_stake_multiplier := multiplier;
                       QualifyingRace.suggested_stake := stake;
                       QualifyingRace.suggested_liability := liability;
                       QualifyingRace.reasons :=
                         "All criteria met" :: positive_notes race |})))) /\
  (forall race_runners st races,
     backtest_races random self race_runners st races
       <> Raise ZeroDivisionError).
Proof.
  split; [|intros; apply backtest_races_no_zero_division].
  destruct (evaluate_race_sizing race fav bankroll)
    as [Hno|(odds & Hq & Hodds & Hone & Heq)]; [left; exact Hno|].
  right. exists odds. repeat split; try assumption.
  - destruct (qualifies_odds self race fav Hq) as (odds' & Hodds' & Hmin & _).
    congruence.
  - intros multiplier. now apply calculate_stake_returns.
Qed.

End SizingPath.

(** The statement of C10 holds for the default rules. *)
Lemma sizing_only_above_one_witness :
  StrategyRules_valid (rules Example.service) /\
  forall race_runners st races,
    @backtest_races Example.runtime Example.random Example.service
       race_runners st races <> Raise ZeroDivisionError.
Proof.
  assert (Hvalid : StrategyRules_valid (rules Example.service)).
  { split; cbn; try lia; discriminate. }
  split; [exact Hvalid|].
  apply (@sizing_only_above_one Example.runtime Example.random Example.service
           Hvalid Example.race1 Example.favorite1 100000).
Defined.

(** ** Drawdown *)

Lemma max_drawdown_short curve :
  (length curve < 2)%nat -> calculate_max_drawdown curve = Ok 0.
Proof.
  intros Hlen. unfold calculate_max_drawdown.
  apply Nat.ltb_lt in Hlen. now rewrite Hlen.
Qed.

(** The curve of the specification: peak 100000, trough 80000. *)
Lemma max_drawdown_example :
  exists dd,
    calculate_max_drawdown [100000; 90000; 95000; 80000] = Ok dd /\ dd == 20.
Proof. eexists. split; [vm_compute; reflexivity | reflexivity]. Qed.

Lemma drawdown_at_peak v : ~ v == 0 -> (v - v) / v * 100 == 0.
Proof. intros Hv. field. exact Hv. Qed.

(** Under a positive peak the loop returns, and its result is at least the
    drawdown it started from. *)
Lemma drawdown_loop_positive values : forall max_dd peak,
  0 < peak ->
  exists dd, drawdown_loop max_dd peak values = Ok dd /\ max_dd <= dd.
Proof.
  induction values as [|value rest IH]; intros max_dd peak Hpeak; cbn.
  - exists max_dd. split; [reflexivity | lra].
  - set (peak' := if Qgtb value peak then value else peak).
    assert (Hpeak' : 0 < peak').
    { unfold peak'. destruct (Qgtb value peak) eqn:Hgt; [|exact Hpeak].
      apply Qgtb_true in Hgt. lra. }
    rewrite py_div_nonzero by lra. cbn.
    set (dd := (peak' - value) / peak' * 100).
    destruct (IH (if Qgtb dd max_dd then dd else max_dd) peak' Hpeak')
      as (r & Hr & Hle).
    exists r. split; [exact Hr|].
    destruct (Qgtb dd max_dd) eqn:Hgt; [apply Qgtb_true in Hgt|]; lra.
Qed.

(** On a strictly increasing run above the peak, every point is a new
    peak and the drawdown stays where it was. *)
Lemma drawdown_loop_increasing values : forall peak,
  0 < peak -> Sorted Qlt (peak :: values) ->
  exists dd, drawdown_loop 0 peak values = Ok dd /\ dd == 0.
Proof.
  induction values as [|value rest IH]; intros peak Hpeak Hsorted; cbn.
  - exists 0. split; reflexivity.
  - apply Sorted_inv in Hsorted as [Hrest Hhd]. apply HdRel_inv in Hhd.
    assert (Hgt : Qgtb value peak = true) by now apply Qgtb_true.
    rewrite Hgt. rewrite py_div_nonzero by lra. cbn.
    assert (Hzero : Qgtb ((value - value) / value * 100) 0 = false).
    { apply Qgtb_false. rewrite drawdown_at_peak by lra. lra. }
    rewrite Hzero. apply IH; [lra | exact Hrest].
Qed.

(** From a positive first value, the running peak stays positive and the
    drawdown is computed. *)
Lemma max_drawdown_positive_start first rest :
  0 < first -> returns (calculate_max_drawdown (first :: rest)).
Proof.
  intros Hpos. unfold calculate_max_drawdown.
  destruct (length (first :: rest) <? 2)%nat; [exact I|].
  destruct (drawdown_loop_positive (first :: rest) 0 first Hpos) as (dd & -> & _).
  exact I.
Qed.

(** A strictly increasing curve that starts above 0 has no drawdown. *)
Lemma max_drawdown_increasing first rest :
  0 < first -> strictly_increasing (first :: rest) ->
  exists dd, calculate_max_drawdown (first :: rest) = Ok dd /\ dd == 0.
Proof.
  intros Hpos Hinc. unfold calculate_max_drawdown.
  destruct (length (first :: rest) <? 2)%nat.
  { exists 0. split; reflexivity. }
  cbn [drawdown_loop].
  assert (Hsame : Qgtb first first = false) by (apply Qgtb_false; lra).
  rewrite Hsame. rewrite py_div_nonzero by lra. cbn.
  assert (Hzero : Qgtb ((first - first) / first * 100) 0 = false).
  { apply Qgtb_false. rewrite drawdown_at_peak by lra. lra. }
  rewrite Hzero.
  destruct (drawdown_loop_increasing rest first Hpos Hinc) as (dd & -> & Hdd).
  cbn. exists (py_round2 dd). split; [reflexivity|].
  rewrite (py_round2_comp dd 0 Hdd). reflexivity.
Qed.

(** The loop follows the drawdowns of the specification: under a positive
    peak it returns the largest of the drawdown it started from and the
    drawdowns of the remaining points. *)
Lemma drawdown_loop_maximum values : forall max_dd peak,
  0 < peak ->
  exists m,
    drawdown_loop max_dd peak values = Ok m /\
    max_dd <= m /\
    Forall (fun dd => dd <= m) (drawdowns_from peak values) /\
    (m = max_dd \/ Exists (fun dd => dd = m) (drawdowns_from peak values)).
Proof.
  induction values as [|value rest IH]; intros max_dd peak Hpeak.
  - exists max_dd. cbn. repeat split; [lra | constructor | now left].
  - cbn [drawdown_loop drawdowns_from]. unfold py_max.
    set (peak' := if Qgtb value peak then value else peak).
    assert (Hpeak' : 0 < peak').
    { unfold peak'. destruct (Qgtb value peak) eqn:Hgt; [|exact Hpeak].
      apply Qgtb_true in Hgt. lra. }
    rewrite py_div_nonzero by lra. cbn [mbind result_bind].
    set (dd := (peak' - value) / peak' * 100).
    destruct (IH (if Qgtb dd max_dd then dd else max_dd) peak' Hpeak')
      as (m & Hm & Hle & Hall & Hex).
    exists m. split; [exact Hm|].
    destruct (Qgtb dd max_dd) eqn:Hgt;
      [apply Qgtb_true in Hgt | apply Qgtb_false in Hgt].
    + repeat split; [lra | constructor; [exact Hle | exact Hall] |].
      right. destruct Hex as [->|Hex]; [now left | now right].
    + repeat split; [exact Hle | constructor; [lra | exact Hall] |].
      destruct Hex as [->|Hex]; [now left | right; now right].
Qed.

(** C7, as the code has it.  A curve shorter than 2 has drawdown 0.  On a
    curve that starts above 0 the running peak stays above 0, and the
    result is the rounded maximum of the drawdowns
    [(peak - value) / peak * 100] of its points; a strictly increasing such
    curve has drawdown 0.  The curve [100000, 90000, 95000, 80000] has
    drawdown 20. *)
Theorem max_drawdown_positive_curve first rest :
  0 < first ->
  (exists m,
     calculate_max_drawdown (first :: rest)
       = Ok (if (length (first :: rest) <? 2)%nat then 0 else py_round2 m) /\
     Forall (fun dd => dd <= m) (drawdowns (first :: rest)) /\
     Exists (fun dd => dd == m) (drawdowns (first :: rest))) /\
  (strictly_increasing (first :: rest) ->
   exists dd, calculate_max_drawdown (first :: rest) = Ok dd /\ dd == 0) /\
  (forall curve, (length curve < 2)%nat -> calculate_max_drawdown curve = Ok 0) /\
  (exists dd,
     calculate_max_drawdown [100000; 90000; 95000; 80000] = Ok dd /\ dd == 20).
Proof.
  intros Hpos. split; [|split; [|split]].
  - destruct (drawdown_loop_maximum (first :: rest) 0 first Hpos)
      as (m & Hm & Hle & Hall & Hex).
    exists m. unfold calculate_max_drawdown, drawdowns.
    split; [|split; [exact Hall|]].
    + destruct (length (first :: rest) <? 2)%nat; [reflexivity|].
      rewrite Hm. reflexivity.
    + destruct Hex as [->|Hex].
      * apply Exists_cons_hd. cbn. unfold py_max.
        assert (Hsame : Qgtb first first = false) by (apply Qgtb_false; lra).
        rewrite Hsame. apply drawdown_at_peak. lra.
      * eapply Exists_impl; [exact Hex|]. intros dd ->. reflexivity.
  - now apply max_drawdown_increasing.
  - apply max_drawdown_short.
  - apply max_drawdown_example.
Qed.

(** C7 fails as stated: the curve [0, 1] is strictly increasing, its
    first peak is 0, and the drawdown divides by that peak. *)
Lemma max_drawdown_zero_peak :
  strictly_increasing [0; 1] /\
  calculate_max_drawdown [0; 1] = Raise ZeroDivisionError.
Proof.
  split; [|reflexivity].
  repeat constructor.
Qed.

Lemma max_drawdown_positive_curve_witness :
  0 < 100000 /\
  exists dd,
    calculate_max_drawdown [100000; 100483; 100985] = Ok dd /\ dd == 0.
Proof.
  split; [reflexivity|].
  apply (max_drawdown_positive_curve 100000 [100483; 100985]); [reflexivity|].
  repeat constructor.
Defined.

(** ** The guarded divisions of the metrics *)

Lemma percent_of_guarded x y : y <= 0 -> percent_of x y = Ok 0.
Proof.
  intros Hy. unfold percent_of.
  apply Qgtb_false in Hy. now rewrite Hy.
Qed.

Lemma percent_of_returns x y : returns (percent_of x y).
Proof.
  unfold percent_of. destruct (Qgtb y 0) eqn:Hgt; [|exact I].
  apply Qgtb_true in Hgt. rewrite py_div_nonzero by lra. exact I.
Qed.

Lemma bet_returns_returns bets : returns (bet_returns bets).
Proof.
  induction bets as [|b rest IH]; cbn; [exact I|].
  destruct (Qgtb (Bet.stake b) 0) eqn:Hgt; [|exact IH].
  apply Qgtb_true in Hgt. rewrite py_div_nonzero by lra. cbn [mbind result_bind].
  destruct (bet_returns rest); [exact I | contradiction].
Qed.

Lemma equity_curve_length initial bets :
  length (equity_curve initial bets) = S (length bets).
Proof.
  unfold equity_curve. cbn. f_equal.
  revert initial. induction bets as [|b rest IH]; intros initial; cbn;
    [reflexivity | now rewrite IH].
Qed.

Section Metrics.
Context `{PyRuntime}.

Lemma sharpe_returns bets : returns (calculate_sharpe_ratio bets).
Proof.
  unfold calculate_sharpe_ratio.
  destruct (length bets <? 2)%nat; [exact I|].
  pose proof (bet_returns_returns bets) as Hr.
  destruct (bet_returns bets) as [rs|e]; [|contradiction]. cbn [mbind result_bind].
  destruct (length rs <? 2)%nat; [exact I|].
  destruct (Qeq_bool (np_std rs) 0); exact I.
Qed.

(** The three guards of the Sharpe ratio. *)
Lemma sharpe_guards bets :
  ((length bets < 2)%nat -> calculate_sharpe_ratio bets = Ok 0) /\
  (forall rs, bet_returns bets = Ok rs -> (length rs < 2)%nat ->
     calculate_sharpe_ratio bets = Ok 0) /\
  (forall rs, bet_returns bets = Ok rs -> np_std rs == 0 ->
     calculate_sharpe_ratio bets = Ok 0).
Proof.
  unfold calculate_sharpe_ratio. repeat split.
  - intros Hlen. apply Nat.ltb_lt in Hlen. now rewrite Hlen.
  - intros rs Hrs Hlen. destruct (length bets <? 2)%nat; [reflexivity|].
    rewrite Hrs. cbn [mbind result_bind]. apply Nat.ltb_lt in Hlen. now rewrite Hlen.
  - intros rs Hrs Hstd. destruct (length bets <? 2)%nat; [reflexivity|].
    rewrite Hrs. cbn [mbind result_bind]. destruct (length rs <? 2)%nat; [reflexivity|].
    apply Qeq_bool_iff in Hstd. now rewrite Hstd.
Qed.

(** Over dates that are keys of the dictionary, the daily loop returns
    one entry per date. *)
Lemma daily_loop_returns daily_results dates : forall running_bank,
  Forall (fun date => is_Some (daily_results !! date)) dates ->
  exists entries,
    daily_loop daily_results running_bank dates = Ok entries /\
    map DailyPerformance.date entries = dates.
Proof.
  induction dates as [|date rest IH]; intros running_bank Hkeys; cbn.
  - exists []. split; reflexivity.
  - apply Forall_cons in Hkeys as [[day Hday] Hrest]. rewrite Hday.
    pose proof (percent_of_returns (Day.profit_loss day) (Day.turnover day)) as Hroi.
    destruct (percent_of (Day.profit_loss day) (Day.turnover day)) as [roi|e];
      [|contradiction]. cbn [mbind result_bind].
    destruct (IH (running_bank + Day.profit_loss day) Hrest) as (entries & -> & Hmap).
    cbn. eexists. split; [reflexivity|]. cbn. now rewrite Hmap.
Qed.

Lemma sorted_dates_keys (daily_results : gmap string Day.t) :
  Forall (fun date => is_Some (daily_results !! date)) (sorted_dates daily_results).
Proof.
  apply Forall_forall. intros date Hin. unfold sorted_dates in Hin.
  rewrite merge_sort_Permutation in Hin.
  apply elem_of_elements in Hin. now apply elem_of_dom in Hin.
Qed.

(** From a positive initial bankroll every metric is computed. *)
Lemma performance_of_returns initial_bankroll st :
  0 < initial_bankroll -> returns (performance_of initial_bankroll st).
Proof.
  intros Hpos. unfold performance_of.
  pose proof (max_drawdown_positive_start initial_bankroll
                (equity_from initial_bankroll (bets st)) Hpos) as Hdd.
  fold (equity_curve initial_bankroll (bets st)) in Hdd.
  destruct (calculate_max_drawdown _) as [dd|e]; [|contradiction]. cbn [mbind result_bind].
  destruct (daily_loop_returns (daily_results st) _ initial_bankroll
              (sorted_dates_keys (daily_results st))) as (entries & -> & _).
  cbn [mbind result_bind].
  match goal with |- context [percent_of ?x ?y] =>
    pose proof (percent_of_returns x y) as Hwr;
    destruct (percent_of x y); [|contradiction] end. cbn [mbind result_bind].
  match goal with |- context [percent_of ?x ?y] =>
    pose proof (percent_of_returns x y) as Hroi;
    destruct (percent_of x y); [|contradiction] end. cbn [mbind result_bind].
  pose proof (sharpe_returns (bets st)) as Hsh.
  destruct (calculate_sharpe_ratio (bets st)); [|contradiction].
  exact I.
Qed.

(** C5, as the code has it.  From a positive initial bankroll the metrics
    of a backtest are all computed, none of their divisions raising: ROI
    and win rate are 0 under a denominator that is not positive, the Sharpe
    ratio is 0 with fewer than two bets or returns or with a zero
    deviation, the drawdown is 0 on a curve shorter than 2, and the running
    peak of the equity curve is at least the initial bankroll. *)
Theorem metrics_never_divide_by_zero initial_bankroll st :
  0 < initial_bankroll ->
  returns (performance_of initial_bankroll st) /\
  returns (calculate_max_drawdown (equity_curve initial_bankroll (bets st))) /\
  (forall x y, returns (percent_of x y)) /\
  (forall x y, y <= 0 -> percent_of x y = Ok 0) /\
  (forall bets, returns (calculate_sharpe_ratio bets)) /\
  (forall bets,
     ((length bets < 2)%nat -> calculate_sharpe_ratio bets = Ok 0) /\
     (forall rs, bet_returns bets = Ok rs -> (length rs < 2)%nat ->
        calculate_sharpe_ratio bets = Ok 0) /\
     (forall rs, bet_returns bets = Ok rs -> np_std rs == 0 ->
        calculate_sharpe_ratio bets = Ok 0)) /\
  (forall curve, (length curve < 2)%nat -> calculate_max_drawdown curve = Ok 0).
Proof.
  intros Hpos. repeat apply conj.
  - now apply performance_of_returns.
  - now apply max_drawdown_positive_start.
  - apply percent_of_returns.
  - apply percent_of_guarded.
  - apply sharpe_returns.
  - apply sharpe_guards.
  - apply max_drawdown_short.
Qed.

End Metrics.

(** C5 fails as stated: from an initial bankroll of 0 the one bet of the
    run has stake 0, the equity curve is [0, 0] and the drawdown divides by
    its peak. *)
Lemma run_backtest_zero_bankroll :
  @run_backtest Example.runtime Example.random [Example.race1]
     [Example.favorite1] Example.default_rules Example.default_stake_management 0
    = Raise ZeroDivisionError.
Proof. vm_compute. reflexivity. Qed.

Lemma metrics_never_divide_by_zero_witness :
  0 < 100000 /\
  returns (@performance_of Example.runtime 100000
             {| bets := []; daily_results := ∅; bankroll := 100000; draws := 0 |}).
Proof.
  split; [reflexivity|].
  apply (@metrics_never_divide_by_zero Example.runtime 100000). reflexivity.
Defined.

(** ** Runs of the engine *)

Lemma str_le_neq_lt (s1 s2 : string) : String.le s1 s2 -> s1 <> s2 -> str_lt s1 s2.
Proof.
  unfold String.le, str_lt, String.leb, String.ltb. intros Hle Hne.
  destruct (String.compare s1 s2) eqn:Hcmp.
  - apply String.compare_eq_iff in Hcmp. contradiction.
  - reflexivity.
  - contradiction.
Qed.

(** A sorted list without duplicates is strictly sorted. *)
Lemma StronglySorted_strict (dates : list string) :
  StronglySorted String.le dates -> NoDup dates -> StronglySorted str_lt dates.
Proof.
  induction 1 as [|date rest Hrest IH Hall]; intros Hnodup; constructor.
  - apply IH. now apply NoDup_cons in Hnodup as [_ ?].
  - apply NoDup_cons in Hnodup as [Hnotin _].
    apply Forall_forall. intros other Hin.
    apply str_le_neq_lt.
    + rewrite Forall_forall in Hall. now apply Hall.
    + intros ->. contradiction.
Qed.

Lemma sorted_dates_strict (daily_results : gmap string Day.t) :
  StronglySorted str_lt (sorted_dates daily_results).
Proof.
  apply StronglySorted_strict.
  - apply StronglySorted_merge_sort; apply _.
  - unfold sorted_dates. rewrite merge_sort_Permutation. apply NoDup_elements.
Qed.

Lemma StronglySorted_by_date (entries : list DailyPerformance.t) :
  StronglySorted str_lt (map DailyPerformance.date entries) ->
  StronglySorted
    (fun a b => str_lt (DailyPerformance.date a) (DailyPerformance.date b))
    entries.
Proof.
  induction entries as [|entry rest IH]; cbn; intros Hs; constructor;
    apply StronglySorted_inv in Hs as [Hrest Hall].
  - now apply IH.
  - apply Forall_forall. intros other Hin.
    rewrite Forall_forall in Hall. apply Hall.
    apply list_elem_of_fmap. now exists other.
Qed.

Lemma chained_lookup entries : forall bank i a b,
  chained bank entries ->
  entries !! i = Some a -> entries !! S i = Some b ->
  DailyPerformance.ending_bank a = DailyPerformance.starting_bank b.
Proof.
  induction entries as [|entry rest IH]; intros bank i a b Hch Ha Hb;
    [discriminate Ha|].
  destruct Hch as (_ & _ & Hrest).
  destruct i as [|i].
  - injection Ha as <-. destruct rest as [|next rest']; [discriminate Hb|].
    injection Hb as <-. destruct Hrest as (Hstart & _). now rewrite Hstart.
  - exact (IH _ i a b Hrest Ha Hb).
Qed.

Lemma chained_ending entries : forall bank,
  chained bank entries ->
  Forall (fun entry =>
            DailyPerformance.ending_bank entry
              = DailyPerformance.starting_bank entry
                + DailyPerformance.profit_loss entry) entries.
Proof.
  induction entries as [|entry rest IH]; intros bank Hch; constructor.
  - apply Hch.
  - apply (IH (DailyPerformance.ending_bank entry)). apply Hch.
Qed.

Section Runs.
Context `{PyRuntime}.
Variable random : nat -> Q.

(** The entries of the daily loop carry the dates it was given and chain
    from the bank it started with. *)
Lemma daily_loop_chained daily_results dates : forall running_bank entries,
  daily_loop daily_results running_bank dates = Ok entries ->
  map DailyPerformance.date entries = dates /\ chained running_bank entries.
Proof.
  induction dates as [|date rest IH]; intros running_bank entries Hloop;
    cbn in Hloop.
  - injection Hloop as <-. split; [reflexivity | exact I].
  - destruct (daily_results !! date) as [day|]; [|discriminate Hloop].
    destruct (percent_of (Day.profit_loss day) (Day.turnover day)) as [roi|e];
      [|discriminate Hloop].
    cbn [mbind result_bind] in Hloop.
    destruct (daily_loop daily_results (running_bank + Day.profit_loss day) rest)
      as [tail|e] eqn:Htail; [|discriminate Hloop].
    cbn [mbind result_bind] in Hloop. injection Hloop as <-.
    destruct (IH _ _ Htail) as [Hdates Hch].
    split; [cbn; now rewrite Hdates|].
    cbn. repeat split. exact Hch.
Qed.

Lemma performance_of_daily initial_bankroll st performance :
  performance_of initial_bankroll st = Ok performance ->
  daily_loop (daily_results st) initial_bankroll (sorted_dates (daily_results st))
    = Ok (StrategyPerformance.daily_performance performance).
Proof.
  unfold performance_of. intros Hperf.
  repeat bind_inv Hperf.
  injection Hperf as <-. reflexivity.
Qed.

(** The order and the banks of the daily entries of a run. *)
Lemma daily_entries_chained races runners strategy_rules stake_management
    initial_bankroll bets performance :
  run_backtest random races runners strategy_rules stake_management
    initial_bankroll = Ok (bets, performance) ->
  let entries := StrategyPerformance.daily_performance performance in
  StronglySorted
    (fun a b => str_lt (DailyPerformance.date a) (DailyPerformance.date b))
    entries /\
  (forall first, head entries = Some first ->
     DailyPerformance.starting_bank first = initial_bankroll) /\
  (forall i a b, entries !! i = Some a -> entries !! S i = Some b ->
     DailyPerformance.ending_bank a = DailyPerformance.starting_bank b) /\
  Forall (fun entry =>
            DailyPerformance.ending_bank entry
              = DailyPerformance.starting_bank entry
                + DailyPerformance.profit_loss entry) entries.
Proof.
  unfold run_backtest. intros Hrun.
  destruct (backtest_races _ _ _ _ _) as [st|e]; [|discriminate Hrun].
  cbn [mbind result_bind] in Hrun.
  destruct (performance_of initial_bankroll st) as [perf|e] eqn:Hperf;
    [|discriminate Hrun].
  cbn [mbind result_bind] in Hrun. injection Hrun as _ <-.
  apply performance_of_daily in Hperf.
  apply daily_loop_chained in Hperf as [Hdates Hch].
  cbn zeta. repeat apply conj.
  - apply StronglySorted_by_date. rewrite Hdates. apply sorted_dates_strict.
  - intros first Hhead.
    destruct (StrategyPerformance.daily_performance perf) as [|entry rest];
      [discriminate Hhead|].
    injection Hhead as <-. apply Hch.
  - intros i a b. now apply chained_lookup with (bank := initial_bankroll).
  - now apply chained_ending with (bank := initial_bankroll).
Qed.

End Runs.

Section NoBet.
Context `{PyRuntime}.
Variable random : nat -> Q.

(** A race that does not qualify leaves the variables of the loop as they
    are. *)
Lemma backtest_race_skips service race_runners st race :
  race_qualifies service race_runners race = false ->
  backtest_race random service race_runners st race = Ok st.
Proof.
  unfold race_qualifies, backtest_race. intros Hno.
  destruct (find_favorite race_runners race) as [fav|]; [|reflexivity].
  unfold evaluate_race.
  destruct (check_race_qualification service race fav) as [[q rs] sc].
  cbn in Hno. subst q. reflexivity.
Qed.

Lemma backtest_races_skip service race_runners st races :
  Forall (fun race => race_qualifies service race_runners race = false) races ->
  backtest_races random service race_runners st races = Ok st.
Proof.
  induction 1 as [|race rest Hrace _ IH]; cbn; [reflexivity|].
  rewrite backtest_race_skips by exact Hrace. exact IH.
Qed.

Lemma sorted_dates_empty : sorted_dates ∅ = [].
Proof. unfold sorted_dates. rewrite dom_empty_L, elements_empty. reflexivity. Qed.

(** C9. When no race of the input qualifies, the backtest returns no bet
    and a performance of 0 bets, win rate 0, ROI 0, drawdown 0, Sharpe
    ratio 0 and no daily entry; the profit is 0, so that the final bankroll
    is the initial one. *)
Theorem no_qualifying_race races runners strategy_rules stake_management
    initial_bankroll :
  Forall (fun race =>
            race_qualifies
              {| rules := strategy_rules; stake_management := stake_management |}
              (group_runners runners) race = false) races ->
  exists performance,
    run_backtest random races runners strategy_rules stake_management
      initial_bankroll = Ok ([], performance) /\
    StrategyPerformance.total_bets performance = 0%Z /\
    StrategyPerformance.win_rate performance = 0 /\
    StrategyPerformance.roi performance = 0 /\
    StrategyPerformance.max_drawdown performance = 0 /\
    StrategyPerformance.sharpe_ratio performance = 0 /\
    StrategyPerformance.daily_performance performance = [] /\
    StrategyPerformance.total_profit_loss performance == 0 /\
    initial_bankroll + StrategyPerformance.total_profit_loss performance
      == initial_bankroll.
Proof.
  intros Hnone. unfold run_backtest.
  rewrite backtest_races_skip by exact Hnone.
  cbn [mbind result_bind]. unfold performance_of.
  cbn [bets daily_results bankroll].
  rewrite sorted_dates_empty.
  cbn [equity_curve equity_from calculate_max_drawdown length Nat.ltb Nat.leb
       daily_loop filter map py_sum foldl mbind result_bind].
  unfold percent_of. cbn.
  eexists. split; [reflexivity|]. cbn.
  repeat split; try reflexivity; ring.
Qed.

End NoBet.

(** The statement of C9 holds at a concrete input: the only favorite has
    no starting price. *)
Lemma no_qualifying_race_witness :
  Forall (fun race =>
            @race_qualifies Example.runtime
              {| rules := Example.default_rules;
                 stake_management := Example.default_stake_management |}
              (group_runners [Example.unquoted]) race = false)
         [Example.race1; Example.race2] /\
  exists performance,
    @run_backtest Example.runtime Example.random [Example.race1; Example.race2]
      [Example.unquoted] Example.default_rules Example.default_stake_management
      100000 = Ok ([], performance) /\
    StrategyPerformance.total_bets performance = 0%Z.
Proof.
  assert (Hnone :
    Forall (fun race =>
              @race_qualifies Example.runtime
                {| rules := Example.default_rules;
                   stake_management := Example.default_stake_management |}
                (group_runners [Example.unquoted]) race = false)
           [Example.race1; Example.race2]).
  { repeat constructor. }
  split; [exact Hnone|].
  destruct (@no_qualifying_race Example.runtime Example.random
              [Example.race1; Example.race2] [Example.unquoted]
              Example.default_rules Example.default_stake_management 100000
              Hnone) as (performance & Hrun & Hbets & _).
  exists performance. split; assumption.
Defined.

(** From a positive initial bankroll and under rules that satisfy their
    schema, no division of a whole run raises. *)
Lemma run_backtest_no_zero_division `{PyRuntime} (random : nat -> Q)
    races runners strategy_rules stake_management initial_bankroll :
  StrategyRules_valid strategy_rules -> 0 < initial_bankroll ->
  run_backtest random races runners strategy_rules stake_management
    initial_bankroll <> Raise ZeroDivisionError.
Proof.
  intros Hvalid Hpos. unfold run_backtest.
  match goal with
  | |- context [backtest_races random ?service ?rr ?st races] =>
      pose proof (backtest_races_no_zero_division random service Hvalid rr races st)
        as Hloop;
      destruct (backtest_races random service rr st races) as [st'|e]
  end; cbn [mbind result_bind]; [|congruence].
  pose proof (performance_of_returns initial_bankroll st' Hpos) as Hperf.
  destruct (performance_of initial_bankroll st'); [discriminate | contradiction].
Qed.

(** * Further properties of the service *)

(** ** What qualifying means *)

Section Criteria.
Context `{PyRuntime}.
Variable self : StrategyService.
Variable race : Race.t.

Lemma run_checks_passed odds :
  (run_checks self race odds).1 = [] <-> meets_criteria (rules self) race odds.
Proof.
  unfold meets_criteria. split.
  - intros Hnil. unfold run_checks in Hnil.
    repeat match type of Hnil with
    | (check_failed ?b ?r ?p ?st).1 = [] =>
        let Hb := fresh "Hb" in
        destruct (check_failed_reasons b r p st Hnil) as [Hb Hnil'];
        clear Hnil; rename Hnil' into Hnil
    end.
    apply Qltb_false in Hb4. apply Qgtb_false in Hb3.
    apply Z.ltb_ge in Hb2. rewrite Z.gtb_ltb in Hb1. apply Z.ltb_ge in Hb1.
    apply negb_false_iff, bool_decide_eq_true in Hb0.
    repeat split; assumption.
  - intros (Hmin & Hmax & Hlo & Hhi & Htype & Hhcap). unfold run_checks.
    apply Qltb_false in Hmin. apply Qgtb_false in Hmax.
    apply Z.ltb_ge in Hlo. apply Z.ltb_ge in Hhi. rewrite <- Z.gtb_ltb in Hhi.
    rewrite Hmin, Hmax, Hlo, Hhi, (bool_decide_eq_true_2 _ Htype), Hhcap.
    reflexivity.
Qed.

(** The evaluator is sound and complete for the criteria of the rules: a
    favorite qualifies exactly when it is quoted, its odds lie between the
    minimum and the maximum, the number of runners lies between its
    bounds, the type of the race is allowed, and the race is not an
    excluded handicap. *)
Theorem qualifies_iff_criteria favorite :
  (check_race_qualification self race favorite).1.1 = true <->
  exists odds,
    Runner.bsp_odds favorite = Some odds /\ meets_criteria (rules self) race odds.
Proof.
  split.
  - intros Hq.
    destruct (Runner.bsp_odds favorite) as [odds|] eqn:Hodds.
    + exists odds. split; [reflexivity|].
      destruct (check_race_qualification_quoted self race favorite odds Hodds)
        as [[Hnil _]|[_ Hno]]; [|congruence].
      now apply run_checks_passed.
    + unfold check_race_qualification in Hq. rewrite Hodds in Hq.
      discriminate Hq.
  - intros (odds & Hodds & Hcrit). apply run_checks_passed in Hcrit.
    destruct (check_race_qualification_quoted self race favorite odds Hodds)
      as [[_ ->]|[Hcons _]]; [reflexivity | contradiction].
Qed.

Lemma qualifies_iff_criteria_quoted favorite odds :
  Runner.bsp_odds favorite = Some odds ->
  (check_race_qualification self race favorite).1.1 = true ->
  meets_criteria (rules self) race odds.
Proof.
  intros Hodds Hq.
  destruct (check_race_qualification_quoted self race favorite odds Hodds)
    as [[Hnil _]|[_ Hno]]; [|congruence].
  now apply run_checks_passed.
Qed.

(** Each check keeps the score at most 100, and at most 85 once a reason
    is recorded, its penalty being at least 15. *)
Lemma check_failed_score failed reason penalty st :
  15 <= penalty ->
  st.2 <= 100 /\ (st.1 <> [] -> st.2 <= 85) ->
  (check_failed failed reason penalty st).2 <= 100 /\
  ((check_failed failed reason penalty st).1 <> [] ->
   (check_failed failed reason penalty st).2 <= 85).
Proof.
  intros Hpen [Hle Hcons]. destruct failed; cbn; [|split; assumption].
  split; [lra|]. intros _. lra.
Qed.

Lemma run_checks_score odds :
  (run_checks self race odds).2 <= 100 /\
  ((run_checks self race odds).1 <> [] -> (run_checks self race odds).2 <= 85).
Proof.
  unfold run_checks.
  repeat (apply check_failed_score; [discriminate|]).
  cbn. split; [discriminate | congruence].
Qed.

(** The score lies between 0 and 100; it is 100 for a qualifying favorite
    and at most 85 for any other. *)
Theorem score_bounds favorite :
  let '(qualifies, _, score) := check_race_qualification self race favorite in
  0 <= score /\ score <= 100 /\
  (qualifies = true -> score = 100) /\
  (qualifies = false -> score <= 85).
Proof.
  destruct (Runner.bsp_odds favorite) as [odds|] eqn:Hodds.
  - destruct (check_race_qualification_quoted self race favorite odds Hodds)
      as [[_ ->]|[Hcons Hno]].
    + repeat split; try discriminate.
    + revert Hno. unfold check_race_qualification. rewrite Hodds.
      destruct (run_checks_score odds) as [Hle Hpen]. specialize (Hpen Hcons).
      destruct (run_checks self race odds) as [reasons score]. cbn in *.
      intros ->. unfold py_max.
      destruct (Qgtb score 0) eqn:Hgt;
        [apply Qgtb_true in Hgt | apply Qgtb_false in Hgt];
        repeat split; try discriminate; lra.
  - unfold check_race_qualification. rewrite Hodds.
    repeat split; discriminate.
Qed.

End Criteria.

(** ** The outcome of a bet *)

(** The probability that [simulate_bet_result] compares its draw with. *)
Lemma lay_win_prob_bounds x :
  55 # 100 <= py_min (75 # 100) (py_max (55 # 100) x) /\
  py_min (75 # 100) (py_max (55 # 100) x) <= 75 # 100.
Proof.
  unfold py_min, py_max.
  destruct (Qgtb x (55 # 100)) eqn:Hlo;
    [apply Qgtb_true in Hlo | apply Qgtb_false in Hlo].
  - destruct (Qltb x (75 # 100)) eqn:Hhi;
      [apply Qltb_true in Hhi | apply Qltb_false in Hhi]; lra.
  - assert (Hhi : Qltb (55 # 100) (75 # 100) = true) by reflexivity.
    rewrite Hhi. lra.
Qed.

Lemma lay_win_prob_monotone x y :
  x <= y ->
  py_min (75 # 100) (py_max (55 # 100) x)
    <= py_min (75 # 100) (py_max (55 # 100) y).
Proof.
  intros Hxy. unfold py_min, py_max.
  destruct (Qgtb x (55 # 100)) eqn:Hx;
    [apply Qgtb_true in Hx | apply Qgtb_false in Hx];
  destruct (Qgtb y (55 # 100)) eqn:Hy;
    [apply Qgtb_true in Hy | apply Qgtb_false in Hy | apply Qgtb_true in Hy
     | apply Qgtb_false in Hy];
  repeat match goal with
  | |- context [Qltb ?a ?b] =>
      let Hc := fresh "Hc" in
      destruct (Qltb a b) eqn:Hc;
        [apply Qltb_true in Hc | apply Qltb_false in Hc]
  end; lra.
Qed.

Lemma simulate_bet_result_not_void odds u : simulate_bet_result odds u <> VOID.
Proof. unfold simulate_bet_result. destruct (Qltb u _); discriminate. Qed.

(** A simulated lay bet is won or lost, never void; a draw below 0.55
    wins and a draw of 0.75 or more loses, whatever the odds. *)
Theorem simulate_bet_result_thresholds odds u :
  simulate_bet_result odds u <> VOID /\
  (u < 55 # 100 -> simulate_bet_result odds u = WON) /\
  (75 # 100 <= u -> simulate_bet_result odds u = LOST).
Proof.
  unfold simulate_bet_result.
  destruct (lay_win_prob_bounds ((67 # 100) + (odds - 2) * (2 # 100)))
    as [Hlo Hhi].
  destruct (Qltb u _) eqn:Hdraw;
    [apply Qltb_true in Hdraw | apply Qltb_false in Hdraw].
  - repeat split; [discriminate|]. intros Hu. lra.
  - repeat split; [discriminate|]. intros Hu. lra.
Qed.

(** With the same draw, a bet won at some odds is won at any higher
    odds. *)
Theorem simulate_bet_result_monotone odds1 odds2 u :
  odds1 <= odds2 ->
  simulate_bet_result odds1 u = WON -> simulate_bet_result odds2 u = WON.
Proof.
  intros Hodds. unfold simulate_bet_result.
  pose proof (lay_win_prob_monotone
                ((67 # 100) + (odds1 - 2) * (2 # 100))
                ((67 # 100) + (odds2 - 2) * (2 # 100))) as Hmono.
  assert (Hle : (67 # 100) + (odds1 - 2) * (2 # 100)
                <= (67 # 100) + (odds2 - 2) * (2 # 100)) by lra.
  specialize (Hmono Hle).
  destruct (Qltb u (py_min _ (py_max _ ((67 # 100) + (odds1 - 2) * (2 # 100)))))
    eqn:H1; [|discriminate].
  apply Qltb_true in H1. intros _.
  assert (H2 : Qltb u (py_min (75 # 100)
                         (py_max (55 # 100)
                            ((67 # 100) + (odds2 - 2) * (2 # 100)))) = true).
  { apply Qltb_true. lra. }
  now rewrite H2.
Qed.

Lemma simulate_bet_result_monotone_witness :
  (2 : Q) <= 3 /\ simulate_bet_result 3 (66 # 100) = WON.
Proof.
  split; [discriminate|].
  apply (simulate_bet_result_monotone 2 3 (66 # 100)); [discriminate | reflexivity].
Defined.

(** ** Rounding to hundredths *)

Lemma round_half_even_le_Z x (n : Z) :
  x <= inject_Z n -> (round_half_even x <= n)%Z.
Proof.
  intros Hx. destruct (round_half_even_close x) as [_ Hhi].
  assert (Hlt : inject_Z (round_half_even x) < inject_Z (n + 1)).
  { rewrite inject_Z_plus. change (inject_Z 1) with 1. lra. }
  rewrite <- Zlt_Qlt in Hlt. lia.
Qed.

Lemma round_half_even_ge_Z x (n : Z) :
  inject_Z n <= x -> (n <= round_half_even x)%Z.
Proof.
  intros Hx. destruct (round_half_even_close x) as [Hlo _].
  assert (Hlt : inject_Z (n - 1) < inject_Z (round_half_even x)).
  { unfold Z.sub. rewrite inject_Z_plus. change (inject_Z (- (1))) with (-1 # 1).
    lra. }
  rewrite <- Zlt_Qlt in Hlt. lia.
Qed.

(** Rounding keeps the order. *)
Lemma round_half_even_monotone x y :
  x <= y -> (round_half_even x <= round_half_even y)%Z.
Proof.
  intros Hxy.
  pose proof (Qfloor_resp_le x y Hxy) as Hfloor.
  destruct (Z.eq_dec (Qfloor x) (Qfloor y)) as [Heq|Hne].
  - unfold round_half_even. rewrite Heq.
    destruct (Qcompare_spec (x - inject_Z (Qfloor y)) (1 # 2)) as [Hx|Hx|Hx];
      destruct (Qcompare_spec (y - inject_Z (Qfloor y)) (1 # 2)) as [Hy|Hy|Hy];
      try lia; try lra; destruct (Z.even (Qfloor y)); lia.
  - assert (Hx : (round_half_even x <= Qfloor x + 1)%Z).
    { apply round_half_even_le_Z. pose proof (Qlt_floor x). lra. }
    assert (Hy : (Qfloor y <= round_half_even y)%Z).
    { apply round_half_even_ge_Z. apply Qfloor_le. }
    lia.
Qed.

Lemma py_round2_monotone x y : x <= y -> py_round2 x <= py_round2 y.
Proof.
  intros Hxy. unfold py_round2.
  assert (Hz : (round_half_even (x * 100) <= round_half_even (y * 100))%Z).
  { apply round_half_even_monotone. lra. }
  rewrite Zle_Qle in Hz.
  apply Qle_shift_div_l; [reflexivity|].
  set (a := inject_Z (round_half_even (x * 100))) in *.
  set (b := inject_Z (round_half_even (y * 100))) in *.
  assert (Ha : a / 100 * 100 == a) by field.
  lra.
Qed.

Lemma py_round2_nonneg x : 0 <= x -> 0 <= py_round2 x.
Proof.
  intros Hx. pose proof (py_round2_monotone 0 x Hx) as Hmono.
  assert (H0 : py_round2 0 == 0) by reflexivity. lra.
Qed.

(** ** More on the stake sizing *)

Section StakeBounds.
Variable self : StrategyService.
Variables bankroll odds multiplier : Q.

Let sm := stake_management self.
Let uncapped_stake := bankroll * (base_stake_percent sm / 100) * multiplier.
Let max_liability := bankroll * (max_liability_percent sm / 100).

(** What the sizing returns at odds above 1, by the branch it takes. *)
Lemma calculate_stake_cases :
  1 < odds ->
  (max_liability < uncapped_stake * (odds - 1) /\
   calculate_stake self bankroll odds multiplier
     = Ok (py_round2 (max_liability / (odds - 1)), py_round2 max_liability)) \/
  (uncapped_stake * (odds - 1) <= max_liability /\
   calculate_stake self bankroll odds multiplier
     = Ok (py_round2 uncapped_stake, py_round2 (uncapped_stake * (odds - 1)))).
Proof.
  intros Hodds. unfold calculate_stake.
  fold sm. fold uncapped_stake. fold max_liability.
  destruct (Qgtb (uncapped_stake * (odds - 1)) max_liability) eqn:Hcap;
    [apply Qgtb_true in Hcap | apply Qgtb_false in Hcap].
  - left. split; [exact Hcap|]. rewrite py_div_nonzero by lra. reflexivity.
  - right. split; [exact Hcap | reflexivity].
Qed.

Lemma calculate_stake_le_rounded :
  1 < odds ->
  exists stake liability,
    calculate_stake self bankroll odds multiplier = Ok (stake, liability) /\
    liability <= py_round2 max_liability /\
    stake <= py_round2 uncapped_stake.
Proof.
  intros Hodds.
  destruct (calculate_stake_cases Hodds) as [[Hcap ->]|[Hcap ->]];
    eexists _, _; (split; [reflexivity|]); split.
  - lra.
  - apply py_round2_monotone. apply Qle_shift_div_r; lra.
  - now apply py_round2_monotone.
  - lra.
Qed.

(** At odds above 1 the liability is at most the rounded ceiling, with no
    further margin, and the clamp never raises the stake above the rounded
    uncapped stake. *)
Theorem calculate_stake_never_above :
  1 < odds ->
  exists stake liability,
    calculate_stake self bankroll odds multiplier = Ok (stake, liability) /\
    liability <= py_round2 max_liability /\
    stake <= py_round2 uncapped_stake.
Proof. exact calculate_stake_le_rounded. Qed.

Lemma calculate_stake_signs :
  1 < odds -> 0 <= bankroll -> 0 <= multiplier ->
  0 <= base_stake_percent sm -> 0 <= max_liability_percent sm ->
  exists stake liability,
    calculate_stake self bankroll odds multiplier = Ok (stake, liability) /\
    0 <= stake /\ 0 <= liability.
Proof.
  intros Hodds Hbank Hmult Hbase Hmax.
  assert (Hstake : 0 <= uncapped_stake).
  { unfold uncapped_stake.
    apply Qmult_le_0_compat; [|assumption].
    apply Qmult_le_0_compat; [assumption|].
    apply Qle_shift_div_l; [reflexivity | lra]. }
  assert (Hceiling : 0 <= max_liability).
  { unfold max_liability. apply Qmult_le_0_compat; [assumption|].
    apply Qle_shift_div_l; [reflexivity | lra]. }
  destruct (calculate_stake_cases Hodds) as [[Hcap ->]|[Hcap ->]];
    eexists _, _; (split; [reflexivity|]); split; apply py_round2_nonneg.
  - apply Qle_shift_div_l; lra.
  - exact Hceiling.
  - exact Hstake.
  - apply Qmult_le_0_compat; lra.
Qed.

(** With a bankroll, percentages and a multiplier that are not negative,
    neither the stake nor the liability is negative at odds above 1. *)
Theorem calculate_stake_nonneg :
  1 < odds -> 0 <= bankroll -> 0 <= multiplier ->
  0 <= base_stake_percent sm -> 0 <= max_liability_percent sm ->
  exists stake liability,
    calculate_stake self bankroll odds multiplier = Ok (stake, liability) /\
    0 <= stake /\ 0 <= liability.
Proof. exact calculate_stake_signs. Qed.

Lemma calculate_stake_loss_bound :
  1 < odds -> 0 < bankroll -> max_liability_percent sm <= 20 ->
  exists stake liability,
    calculate_stake self bankroll odds multiplier = Ok (stake, liability) /\
    liability < bankroll.
Proof.
  intros Hodds Hbank Hmax.
  destruct calculate_stake_le_rounded as (stake & liability & Hcall & Hle & _);
    [exact Hodds|].
  exists stake, liability. split; [exact Hcall|].
  assert (Hceiling : max_liability <= bankroll * (20 # 100)).
  { unfold max_liability.
    assert (Hpct : max_liability_percent sm / 100 <= 20 # 100).
    { apply Qle_shift_div_r; lra. }
    assert (Hprod : 0 <= bankroll * ((20 # 100) - max_liability_percent sm / 100)).
    { apply Qmult_le_0_compat; lra. }
    assert (Hexp : bankroll * ((20 # 100) - max_liability_percent sm / 100)
                   == bankroll * (20 # 100)
                      - bankroll * (max_liability_percent sm / 100)) by ring.
    lra. }
  destruct (Qlt_le_dec (1 # 160) bankroll) as [Hbig|Hsmall].
  - pose proof (py_round2_close max_liability) as [_ Hclose]. lra.
  - assert (Hround : py_round2 max_liability <= py_round2 (1 # 800)).
    { apply py_round2_monotone. lra. }
    assert (Hzero : py_round2 (1 # 800) == 0) by reflexivity.
    lra.
Qed.

(** Under the ceiling of at most 20 percent that the schema allows, the
    liability of a bet is below the bankroll it is sized against: a lost
    bet never takes a positive bankroll to 0. *)
Theorem calculate_stake_liability_below_bankroll :
  1 < odds -> 0 < bankroll -> max_liability_percent sm <= 20 ->
  exists stake liability,
    calculate_stake self bankroll odds multiplier = Ok (stake, liability) /\
    liability < bankroll.
Proof. exact calculate_stake_loss_bound. Qed.

End StakeBounds.

Lemma calculate_stake_never_above_witness :
  1 < 3 /\
  exists stake liability,
    calculate_stake Example.service 100000 3 4 = Ok (stake, liability) /\
    liability <= 2000.
Proof.
  split; [reflexivity|].
  destruct (calculate_stake_never_above Example.service 100000 3 4)
    as (stake & liability & Hcall & Hle & _); [reflexivity|].
  exists stake, liability. split; [exact Hcall|].
  assert (Hceiling :
    py_round2 (100000 * (max_liability_percent (stake_management Example.service) / 100))
      == 2000) by reflexivity.
  cbv zeta in Hle. lra.
Defined.

Lemma calculate_stake_nonneg_witness :
  1 < 3 /\ 0 <= 100000 /\
  exists stake liability,
    calculate_stake Example.service 100000 3 1 = Ok (stake, liability) /\
    0 <= stake /\ 0 <= liability.
Proof.
  split; [reflexivity|]. split; [discriminate|].
  apply (calculate_stake_nonneg Example.service 100000 3 1);
    [reflexivity | discriminate..].
Defined.

Lemma calculate_stake_liability_below_bankroll_witness :
  1 < 3 /\ 0 < 1 # 100 /\
  exists stake liability,
    calculate_stake Example.service (1 # 100) 3 1 = Ok (stake, liability) /\
    liability < 1 # 100.
Proof.
  split; [reflexivity|]. split; [reflexivity|].
  apply (calculate_stake_liability_below_bankroll Example.service (1 # 100) 3 1);
    [reflexivity | reflexivity | discriminate].
Defined.

(** ** Runners by race, and the favorite *)

Lemma group_runners_snoc runners runner :
  group_runners (runners ++ [runner])
  = <[Runner.race_id runner :=
        default [] (group_runners runners !! Runner.race_id runner) ++ [runner]]>
      (group_runners runners).
Proof. unfold group_runners. now rewrite foldl_app. Qed.

Lemma group_runners_filter runners race_id :
  group_runners runners !! race_id
  = match filter (fun r => Runner.race_id r = race_id) runners with
    | [] => None
    | race_runners_list => Some race_runners_list
    end.
Proof.
  induction runners as [|runner runners IH] using rev_ind; [reflexivity|].
  rewrite group_runners_snoc, filter_app.
  destruct (decide (Runner.race_id runner = race_id)) as [Heq|Hne].
  - subst race_id. rewrite lookup_insert_eq, IH.
    rewrite (filter_cons_True _ runner []) by reflexivity.
    destruct (filter _ runners); reflexivity.
  - rewrite lookup_insert_ne by exact Hne. rewrite IH.
    rewrite (filter_cons_False _ runner []) by exact Hne.
    cbn. now rewrite app_nil_r.
Qed.

(** The dictionary [race_runners] holds, under each race identifier, the
    runners of the input that carry it, in input order; an identifier that
    no runner carries is not a key. *)
Theorem group_runners_lookup runners race_id :
  group_runners runners !! race_id
  = match filter (fun r => Runner.race_id r = race_id) runners with
    | [] => None
    | race_runners_list => Some race_runners_list
    end.
Proof. apply group_runners_filter. Qed.

(** The favorite of a race is the first runner of the input that carries
    the identifier of the race and is flagged favorite; there is none when
    the race has no such runner. *)
Theorem find_favorite_first_flagged runners race :
  find_favorite (group_runners runners) race
  = head (filter (fun r => Runner.is_favorite r = true /\
                           Runner.race_id r = Race.id race) runners).
Proof.
  unfold find_favorite. rewrite group_runners_filter.
  rewrite <- list_filter_filter.
  destruct (filter (fun r => Runner.race_id r = Race.id race) runners);
    reflexivity.
Qed.

(** ** Errors of [evaluate_race] *)

Section EvaluateRace.
Context `{PyRuntime}.
Variable self : StrategyService.
Variable race : Race.t.
Variable fav : Runner.t.
Variable bankroll : Q.

(** The date of a race is read only once the race qualifies: with a date
    that does not parse, a qualifying race raises [ValueError] and any
    other race is passed over without an error. *)
Theorem evaluate_race_unparsed_date :
  strptime (Race.race_date race) "%Y-%m-%d" = None ->
  evaluate_race self race fav bankroll
  = if (check_race_qualification self race fav).1.1
    then Raise ValueError else Ok None.
Proof.
  intros Hdate. unfold evaluate_race.
  destruct (check_race_qualification self race fav) as [[qualifies rs] score].
  cbn [fst snd]. destruct qualifies; cbn [negb]; [|reflexivity].
  unfold calculate_stake_multiplier. rewrite Hdate. reflexivity.
Qed.

(** Under rules that satisfy their schema, a qualifying race whose date
    parses is evaluated: the record carries score 100, the multiplier of
    the race, and the stake and liability sized at the odds of the
    favorite against the bankroll of the call. *)
Theorem evaluate_race_qualifying d :
  StrategyRules_valid (rules self) ->
  (check_race_qualification self race fav).1.1 = true ->
  strptime (Race.race_date race) "%Y-%m-%d" = Some d ->
  exists odds multiplier stake liability,
    Runner.bsp_odds fav = Some odds /\
    calculate_stake_multiplier self race = Ok multiplier /\
    calculate_stake self bankroll odds multiplier = Ok (stake, liability) /\
    evaluate_race self race fav bankroll
    = Ok (Some {| QualifyingRace.race := race;
                  QualifyingRace.favorite := fav;
                  QualifyingRace.qualification_score := 100;
                  QualifyingRace.adjusted_stake_multiplier := multiplier;
                  QualifyingRace.suggested_stake := stake;
                  QualifyingRace.suggested_liability := liability;
                  QualifyingRace.reasons :=
                    "All criteria met" :: positive_notes race |}).
Proof.
  intros Hvalid Hq Hdate.
  destruct (evaluate_race_sizing self Hvalid race fav bankroll)
    as [[Hno _]|(odds & _ & Hodds & Hone & Heq)]; [congruence|].
  assert (Hm : exists multiplier, calculate_stake_multiplier self race = Ok multiplier).
  { unfold calculate_stake_multiplier. rewrite Hdate. eexists. reflexivity. }
  destruct Hm as [multiplier Hm].
  pose proof (calculate_stake_returns self bankroll odds multiplier Hone) as Hret.
  destruct (calculate_stake self bankroll odds multiplier)
    as [[stake liability]|e] eqn:Hstake; [|contradiction].
  exists odds, multiplier, stake, liability.
  repeat split; try assumption.
  rewrite Heq, Hm. cbn [mbind result_bind]. rewrite Hstake. reflexivity.
Qed.

End EvaluateRace.

(** ** The loop over the races *)

Lemma py_sum_snoc xs x : py_sum (xs ++ [x]) = py_sum xs + x.
Proof. unfold py_sum. now rewrite foldl_app. Qed.

Section Loop.
Context `{PyRuntime}.
Variable random : nat -> Q.
Variable service : StrategyService.
Variable race_runners : gmap string (list Runner.t).

(** One iteration either passes over a race that does not qualify, or
    settles one bet on a race that does. *)
Lemma backtest_race_step st race st' :
  backtest_race random service race_runners st race = Ok st' ->
  (race_qualifies service race_runners race = false /\ st' = st) \/
  (race_qualifies service race_runners race = true /\
   exists bet result,
     st' = settle st race bet result /\
     Bet.result bet = Some result /\
     Bet.race_id bet = Race.id race /\
     Bet.race bet = Some race /\
     Bet.id bet = "bt_" +:+ pretty (Z.of_nat (length (bets st)) + 1)%Z /\
     (exists multiplier,
        calculate_stake_multiplier service race = Ok multiplier /\
        calculate_stake service (bankroll st) (Bet.odds bet) multiplier
          = Ok (Bet.stake bet, Bet.liability bet)) /\
     settled_bet (rules service) bet).
Proof.
  unfold backtest_race, race_qualifies.
  destruct (find_favorite race_runners race) as [fav|].
  2: { intros [= <-]. left. split; reflexivity. }
  destruct ((check_race_qualification service race fav).1.1) eqn:Hq.
  - destruct (qualifies_odds service race fav Hq)
      as (odds & Hodds & Hmin & Heq).
    assert (Hcrit : meets_criteria (rules service) race odds).
    { apply (qualifies_iff_criteria_quoted service race fav odds Hodds Hq). }
    unfold evaluate_race. rewrite Heq, Hodds. cbn [negb].
    destruct (calculate_stake_multiplier service race) as [m|e];
      [|discriminate].
    cbn [mbind result_bind].
    destruct (calculate_stake service (bankroll st) odds m)
      as [[stake liability]|e] eqn:Hstake; [|discriminate].
    cbn [mbind result_bind QualifyingRace.suggested_stake
         QualifyingRace.suggested_liability].
    destruct (strptime _ _) as [at_|]; [|discriminate].
    intros [= <-]. right. split; [reflexivity|].
    match goal with |- context [bets st ++ [?b]] => exists b end.
    exists (simulate_bet_result odds (random (draws st))).
    split; [reflexivity|]. unfold settled_bet. cbn.
    repeat split; try reflexivity; try apply Hcrit;
      [exists m; split; [reflexivity | exact Hstake] |].
    pose proof (simulate_bet_result_not_void odds (random (draws st))) as Hvoid.
    destruct (simulate_bet_result odds (random (draws st)));
      [left | right | contradiction]; split; reflexivity.
  - unfold evaluate_race.
    destruct (check_race_qualification service race fav) as [[q rs] sc].
    cbn in Hq. subst q. cbn. intros [= <-]. left. split; reflexivity.
Qed.

(** A property of the variables of the loop that every iteration keeps
    holds when the loop ends. *)
Lemma backtest_races_invariant (P : engine -> Prop) :
  (forall st race st',
     P st -> backtest_race random service race_runners st race = Ok st' -> P st') ->
  forall races st st',
    P st -> backtest_races random service race_runners st races = Ok st' -> P st'.
Proof.
  intros Hstep. induction races as [|race rest IH]; intros st st' HP Hrun;
    cbn in Hrun.
  - now injection Hrun as <-.
  - bind_inv Hrun. eapply IH; [|exact Hrun]. eapply Hstep; eassumption.
Qed.

End Loop.

(** ** The bets of a run *)

Section RunBets.
Context `{PyRuntime}.
Variable random : nat -> Q.
Variables (races : list Race.t) (runners : list Runner.t).
Variables (strategy_rules : StrategyRules) (stake_mgmt : StakeManagement).
Variable initial_bankroll : Q.

Let service := Build_StrategyService strategy_rules stake_mgmt.
Let start :=
  {| bets := []; daily_results := ∅; bankroll := initial_bankroll; draws := 0 |}.

(** A run that returns is a loop that returned, followed by the metrics
    of its final variables. *)
Lemma run_backtest_inv bets_ performance :
  run_backtest random races runners strategy_rules stake_mgmt
    initial_bankroll = Ok (bets_, performance) ->
  exists st,
    backtest_races random service (group_runners runners) start races = Ok st /\
    bets st = bets_ /\
    performance_of initial_bankroll st = Ok performance.
Proof.
  unfold run_backtest. fold service. fold start. intros Hrun.
  bind_inv Hrun. bind_inv Hrun. injection Hrun as <- <-.
  eexists. split; [reflexivity|]. split; [reflexivity | assumption].
Qed.

(** Every bet a backtest returns is a settled lay bet of the strategy
    "backtest", settled when it was placed, at odds within the band of the
    rules, and either won for its stake or lost for its liability; no bet
    is void or without a result. *)
Theorem run_backtest_bets_settled bets_ performance :
  run_backtest random races runners strategy_rules stake_mgmt
    initial_bankroll = Ok (bets_, performance) ->
  Forall (settled_bet strategy_rules) bets_.
Proof.
  intros Hrun. destruct (run_backtest_inv _ _ Hrun) as (st & Hloop & <- & _).
  revert Hloop.
  apply (backtest_races_invariant random service (group_runners runners)
           (fun st => Forall (settled_bet strategy_rules) (bets st)));
    [|constructor].
  intros st0 race st' Hinv Hstep.
  destruct (backtest_race_step _ _ _ _ _ _ Hstep)
    as [[_ ->]|(_ & bet & result & -> & _ & _ & _ & _ & _ & Hbet)];
    [exact Hinv|].
  cbn. apply Forall_app. split; [exact Hinv|]. constructor; [exact Hbet|constructor].
Qed.

(** The bets are numbered from 1 in the order they were placed: the bet
    at index [i] has identifier "bt_" followed by [i + 1]. *)
Theorem run_backtest_bet_ids bets_ performance i bet :
  run_backtest random races runners strategy_rules stake_mgmt
    initial_bankroll = Ok (bets_, performance) ->
  bets_ !! i = Some bet ->
  Bet.id bet = "bt_" +:+ pretty (Z.of_nat i + 1)%Z.
Proof.
  intros Hrun. destruct (run_backtest_inv _ _ Hrun) as (st & Hloop & <- & _).
  revert i bet. revert Hloop.
  apply (backtest_races_invariant random service (group_runners runners)
           (fun st => forall i bet, bets st !! i = Some bet ->
                        Bet.id bet = "bt_" +:+ pretty (Z.of_nat i + 1)%Z)).
  2: { intros i bet Hi. discriminate Hi. }
  intros st0 race st' Hinv Hstep i bet Hi.
  destruct (backtest_race_step _ _ _ _ _ _ Hstep)
    as [[_ ->]|(_ & bet' & result & -> & _ & _ & _ & Hid & _)];
    [now apply Hinv|].
  cbn in Hi. apply lookup_app_Some in Hi as [Hi|[Hlen Hi]].
  - now apply Hinv.
  - destruct (i - length (bets st0))%nat as [|n] eqn:Hdiff; [|discriminate Hi].
    injection Hi as <-. rewrite Hid. do 3 f_equal. lia.
Qed.

(** The bets are placed on the qualifying races, one for each, in the
    order of the input. *)
Theorem run_backtest_bets_on_qualifying bets_ performance :
  run_backtest random races runners strategy_rules stake_mgmt
    initial_bankroll = Ok (bets_, performance) ->
  map Bet.race_id bets_
  = map Race.id
      (filter (fun race =>
                 race_qualifies service (group_runners runners) race = true)
              races).
Proof.
  intros Hrun. destruct (run_backtest_inv _ _ Hrun) as (st & Hloop & <- & _).
  assert (Hgen : forall races st0 st',
            backtest_races random service (group_runners runners) st0 races = Ok st' ->
            map Bet.race_id (bets st')
            = map Bet.race_id (bets st0)
              ++ map Race.id
                   (filter (fun race =>
                      race_qualifies service (group_runners runners) race = true)
                      races)).
  { clear. induction races as [|race rest IH]; intros st0 st' Hloop;
      cbn in Hloop.
    - injection Hloop as <-. cbn. now rewrite app_nil_r.
    - bind_inv Hloop. rewrite (IH _ _ Hloop).
      destruct (backtest_race_step _ _ _ _ _ _ E)
        as [[Hq ->]|(Hq & bet & result & -> & _ & Hid & _)].
      + rewrite filter_cons_False; [reflexivity|]. rewrite Hq. discriminate.
      + rewrite filter_cons_True by exact Hq. cbn.
        rewrite map_app, <- app_assoc. cbn. now rewrite Hid. }
  rewrite (Hgen _ _ _ Hloop). reflexivity.
Qed.

End RunBets.

(** ** The totals of a run *)

Section Totals.
Context `{PyRuntime}.

(** The fields of the performance, read off its computation. *)
Lemma performance_of_fields initial_bankroll st performance :
  performance_of initial_bankroll st = Ok performance ->
  StrategyPerformance.total_bets performance = Z.of_nat (length (bets st)) /\
  StrategyPerformance.won_bets performance
    = Z.of_nat (length (filter (fun b => Bet.result b = Some WON) (bets st))) /\
  StrategyPerformance.lost_bets performance
    = (StrategyPerformance.total_bets performance
       - StrategyPerformance.won_bets performance)%Z /\
  StrategyPerformance.total_turnover performance
    = py_sum (map Bet.stake (bets st)) /\
  StrategyPerformance.total_profit_loss performance
    = bankroll st - initial_bankroll /\
  percent_of (inject_Z (StrategyPerformance.won_bets performance))
             (inject_Z (StrategyPerformance.total_bets performance))
    = Ok (StrategyPerformance.win_rate performance) /\
  percent_of (StrategyPerformance.total_profit_loss performance)
             (StrategyPerformance.total_turnover performance)
    = Ok (StrategyPerformance.roi performance) /\
  calculate_max_drawdown (equity_curve initial_bankroll (bets st))
    = Ok (StrategyPerformance.max_drawdown performance) /\
  calculate_sharpe_ratio (bets st)
    = Ok (StrategyPerformance.sharpe_ratio performance).
Proof.
  unfold performance_of. intros Hperf.
  repeat bind_inv Hperf. injection Hperf as <-. cbn.
  repeat split; assumption.
Qed.

(** A percentage of a part in a whole lies between 0 and 100. *)
Lemma percent_of_part x y r :
  0 <= x -> x <= y -> percent_of x y = Ok r -> 0 <= r /\ r <= 100.
Proof.
  intros Hx Hxy. unfold percent_of.
  destruct (Qgtb y 0) eqn:Hy;
    [apply Qgtb_true in Hy | intros [= <-]; split; discriminate].
  rewrite py_div_nonzero by lra. cbn [mbind result_bind]. intros [= <-].
  assert (Hlo : 0 <= x / y) by (apply Qle_shift_div_l; lra).
  assert (Hhi : x / y <= 1) by (apply Qle_shift_div_r; lra).
  lra.
Qed.

End Totals.

Lemma equity_from_snoc bets_ : forall bank bet,
  equity_from bank (bets_ ++ [bet])
  = equity_from bank bets_ ++ [running_total bank bets_ + Bet.profit_loss bet].
Proof.
  induction bets_ as [|b rest IH]; intros bank bet; cbn; [reflexivity|].
  now rewrite IH.
Qed.

(** The equity curve ends at the running total of the bets. *)
Lemma equity_curve_last initial_bankroll bets_ :
  last (equity_curve initial_bankroll bets_)
  = Some (running_total initial_bankroll bets_).
Proof.
  unfold equity_curve.
  induction bets_ as [|bet rest IH] using rev_ind; [reflexivity|].
  rewrite equity_from_snoc, app_comm_cons, last_snoc.
  unfold running_total. rewrite foldl_app. reflexivity.
Qed.

Section RunTotals.
Context `{PyRuntime}.
Variable random : nat -> Q.
Variables (races : list Race.t) (runners : list Runner.t).
Variables (strategy_rules : StrategyRules) (stake_mgmt : StakeManagement).
Variable initial_bankroll : Q.

Let service := Build_StrategyService strategy_rules stake_mgmt.

(** The counts of the performance agree with the bets returned: the total
    is their number, won and lost bets add up to it, neither is negative,
    and the win rate lies between 0 and 100. *)
Theorem run_backtest_counts bets_ performance :
  run_backtest random races runners strategy_rules stake_mgmt
    initial_bankroll = Ok (bets_, performance) ->
  StrategyPerformance.total_bets performance = Z.of_nat (length bets_) /\
  (StrategyPerformance.won_bets performance
   + StrategyPerformance.lost_bets performance
   = StrategyPerformance.total_bets performance)%Z /\
  (0 <= StrategyPerformance.won_bets performance)%Z /\
  (0 <= StrategyPerformance.lost_bets performance)%Z /\
  0 <= StrategyPerformance.win_rate performance /\
  StrategyPerformance.win_rate performance <= 100.
Proof.
  intros Hrun.
  destruct (run_backtest_inv random _ _ _ _ _ _ _ Hrun) as (st & _ & <- & Hperf).
  destruct (performance_of_fields _ _ _ Hperf)
    as (Htotal & Hwon & Hlost & _ & _ & Hrate & _).
  assert (Hle : (StrategyPerformance.won_bets performance
                 <= StrategyPerformance.total_bets performance)%Z).
  { rewrite Hwon, Htotal. apply inj_le. apply length_filter. }
  assert (Hpos : (0 <= StrategyPerformance.won_bets performance)%Z)
    by (rewrite Hwon; lia).
  assert (Hq0 : 0 <= inject_Z (StrategyPerformance.won_bets performance)).
  { change 0 with (inject_Z 0). rewrite <- Zle_Qle. exact Hpos. }
  assert (Hq1 : inject_Z (StrategyPerformance.won_bets performance)
                <= inject_Z (StrategyPerformance.total_bets performance)).
  { rewrite <- Zle_Qle. exact Hle. }
  destruct (percent_of_part _ _ _ Hq0 Hq1 Hrate) as [Hlo Hhi].
  repeat split; try assumption; lia.
Qed.

(** The bankroll of the loop is the initial bankroll to which the profit
    or loss of each bet was added, in the order of the bets. *)
Lemma backtest_races_bankroll st :
  backtest_races random service (group_runners runners)
    {| bets := []; daily_results := ∅; bankroll := initial_bankroll; draws := 0 |}
    races = Ok st ->
  bankroll st = running_total initial_bankroll (bets st).
Proof.
  apply (backtest_races_invariant random service (group_runners runners)
           (fun st => bankroll st = running_total initial_bankroll (bets st)));
    [|reflexivity].
  intros st0 race st' Hinv Hstep.
  destruct (backtest_race_step _ _ _ _ _ _ Hstep)
    as [[_ ->]|(_ & bet & result & -> & _)]; [exact Hinv|].
  unfold settle, running_total. cbn [bets bankroll].
  rewrite foldl_app. cbn [foldl]. now rewrite Hinv.
Qed.

(** The profit of a run is its final bankroll less the initial one, the
    final bankroll being the initial one to which the profit or loss of
    each returned bet was added in order: the bankroll moves by the bets
    and by nothing else.  The equity curve ends at that final bankroll. *)
Theorem run_backtest_profit_is_running_total bets_ performance :
  run_backtest random races runners strategy_rules stake_mgmt
    initial_bankroll = Ok (bets_, performance) ->
  StrategyPerformance.total_profit_loss performance
    = running_total initial_bankroll bets_ - initial_bankroll /\
  last (equity_curve initial_bankroll bets_)
    = Some (running_total initial_bankroll bets_).
Proof.
  intros Hrun.
  destruct (run_backtest_inv random _ _ _ _ _ _ _ Hrun) as (st & Hloop & <- & Hperf).
  destruct (performance_of_fields _ _ _ Hperf) as (_ & _ & _ & _ & -> & _).
  split; [now rewrite (backtest_races_bankroll st Hloop)|].
  apply equity_curve_last.
Qed.

End RunTotals.

(** ** The daily results *)

Lemma bets_on_snoc date bets_ bet race :
  Bet.race bet = Some race ->
  bets_on date (bets_ ++ [bet])
  = if decide (Race.race_date race = date)
    then bets_on date bets_ ++ [bet] else bets_on date bets_.
Proof.
  intros Hrace. unfold bets_on. rewrite filter_app.
  destruct (decide (Race.race_date race = date)) as [Heq|Hne].
  - rewrite (filter_cons_True _ bet []); [reflexivity|].
    rewrite Hrace. cbn. now rewrite Heq.
  - rewrite (filter_cons_False _ bet []); [now rewrite app_nil_r|].
    rewrite Hrace. cbn. congruence.
Qed.

(** Recording a bet keeps each entry of [daily_results] the aggregate of
    the bets of its date, and keeps a date without bets out of the
    dictionary. *)
Lemma record_day_aggregates daily bets_ bet race result :
  Bet.race bet = Some race ->
  Bet.result bet = Some result ->
  (forall date,
     match daily !! date with
     | Some day => aggregates day (bets_on date bets_)
     | None => bets_on date bets_ = []
     end) ->
  forall date,
    match record_day daily (Race.race_date race) (Bet.stake bet)
            (Bet.liability bet) (Bet.profit_loss bet) result !! date with
    | Some day => aggregates day (bets_on date (bets_ ++ [bet]))
    | None => bets_on date (bets_ ++ [bet]) = []
    end.
Proof.
  intros Hrace Hresult Hinv date. unfold record_day.
  rewrite (bets_on_snoc date bets_ bet race Hrace).
  destruct (decide (Race.race_date race = date)) as [<-|Hne].
  2: { rewrite lookup_insert_ne by exact Hne. apply Hinv. }
  rewrite lookup_insert_eq. specialize (Hinv (Race.race_date race)).
  set (day_bets := bets_on (Race.race_date race) bets_) in *.
  assert (Hwon : filter (fun b => Bet.result b = Some WON) (day_bets ++ [bet])
                 = filter (fun b => Bet.result b = Some WON) day_bets
                   ++ (if decide (result = WON) then [bet] else [])).
  { rewrite filter_app. f_equal.
    destruct (decide (result = WON)) as [->|Hne].
    - now rewrite (filter_cons_True _ bet []).
    - rewrite (filter_cons_False _ bet []); [reflexivity|].
      rewrite Hresult. congruence. }
  unfold aggregates. rewrite Hwon, !map_app, !length_app. cbn [map length].
  rewrite !py_sum_snoc.
  destruct (daily !! Race.race_date race) as [day|]; cbn [from_option id].
  - destruct Hinv as (_ & Hbets & Hw & Hsum & Hturn & Hliab & Hpl).
    cbn [Day.bets Day.won Day.lost Day.turnover Day.liability Day.profit_loss].
    rewrite Hturn, Hliab, Hpl.
    repeat split; try reflexivity.
    + intros Hnil. now apply app_eq_nil in Hnil as [_ Hnil].
    + lia.
    + destruct (decide (result = WON)); cbn [length]; lia.
    + destruct (decide (result = WON)); lia.
  - rewrite Hinv. cbn.
    repeat split; try reflexivity; try discriminate;
      destruct (decide (result = WON)); reflexivity.
Qed.

Section Daily.
Context `{PyRuntime}.
Variable random : nat -> Q.
Variable service : StrategyService.
Variable race_runners : gmap string (list Runner.t).

(** When the loop ends, each date of [daily_results] aggregates the bets
    of its races, and every bet carries its race. *)
Lemma backtest_races_daily races initial_bankroll st :
  backtest_races random service race_runners
    {| bets := []; daily_results := ∅; bankroll := initial_bankroll; draws := 0 |}
    races = Ok st ->
  Forall (fun b => is_Some (Bet.race b)) (bets st) /\
  forall date,
    match daily_results st !! date with
    | Some day => aggregates day (bets_on date (bets st))
    | None => bets_on date (bets st) = []
    end.
Proof.
  apply (backtest_races_invariant random service race_runners
           (fun st =>
              Forall (fun b => is_Some (Bet.race b)) (bets st) /\
              forall date,
                match daily_results st !! date with
                | Some day => aggregates day (bets_on date (bets st))
                | None => bets_on date (bets st) = []
                end)).
  - intros st0 race st' [Hraces Hinv] Hstep.
    destruct (backtest_race_step _ _ _ _ _ _ Hstep)
      as [[_ ->]|(_ & bet & result & -> & Hresult & _ & Hrace & _)];
      [split; assumption|].
    unfold settle. cbn [bets daily_results]. split.
    + apply Forall_app. split; [exact Hraces|].
      constructor; [rewrite Hrace; eexists; reflexivity | constructor].
    + now apply record_day_aggregates.
  - split; [constructor|]. intros date. cbn. now rewrite lookup_empty.
Qed.

(** The entries of the daily loop copy the entries of the dictionary. *)
Lemma daily_loop_fields daily dates : forall running_bank entries,
  daily_loop daily running_bank dates = Ok entries ->
  Forall (fun entry =>
            exists day,
              daily !! DailyPerformance.date entry = Some day /\
              DailyPerformance.total_bets entry = Day.bets day /\
              DailyPerformance.won_bets entry = Day.won day /\
              DailyPerformance.lost_bets entry = Day.lost day /\
              DailyPerformance.turnover entry = Day.turnover day /\
              DailyPerformance.liability entry = Day.liability day /\
              DailyPerformance.profit_loss entry = Day.profit_loss day /\
              percent_of (Day.profit_loss day) (Day.turnover day)
                = Ok (DailyPerformance.roi entry)) entries.
Proof.
  induction dates as [|date rest IH]; intros running_bank entries Hloop;
    cbn in Hloop.
  - injection Hloop as <-. constructor.
  - destruct (daily !! date) as [day|] eqn:Hday; [|discriminate Hloop].
    bind_inv Hloop. bind_inv Hloop. injection Hloop as <-.
    constructor; [|eapply IH; eassumption].
    exists day. cbn. repeat split; assumption.
Qed.

End Daily.

Section RunDaily.
Context `{PyRuntime}.
Variable random : nat -> Q.
Variables (races : list Race.t) (runners : list Runner.t).
Variables (strategy_rules : StrategyRules) (stake_mgmt : StakeManagement).
Variable initial_bankroll : Q.

Let service := Build_StrategyService strategy_rules stake_mgmt.

Lemma daily_entries_account bets_ performance :
  run_backtest random races runners strategy_rules stake_mgmt
    initial_bankroll = Ok (bets_, performance) ->
  Forall (fun entry =>
            let day_bets := bets_on (DailyPerformance.date entry) bets_ in
            day_bets <> [] /\
            DailyPerformance.total_bets entry = Z.of_nat (length day_bets) /\
            DailyPerformance.won_bets entry
              = Z.of_nat (length (filter (fun b => Bet.result b = Some WON)
                                         day_bets)) /\
            (DailyPerformance.won_bets entry + DailyPerformance.lost_bets entry
             = DailyPerformance.total_bets entry)%Z /\
            DailyPerformance.turnover entry == py_sum (map Bet.stake day_bets) /\
            DailyPerformance.liability entry
              == py_sum (map Bet.liability day_bets) /\
            DailyPerformance.profit_loss entry
              == py_sum (map Bet.profit_loss day_bets))
         (StrategyPerformance.daily_performance performance) /\
  (forall bet, bet ∈ bets_ ->
     exists entry,
       entry ∈ StrategyPerformance.daily_performance performance /\
       Race.race_date <$> Bet.race bet = Some (DailyPerformance.date entry)).
Proof.
  intros Hrun.
  destruct (run_backtest_inv random _ _ _ _ _ _ _ Hrun)
    as (st & Hloop & <- & Hperf).
  apply performance_of_daily in Hperf.
  destruct (backtest_races_daily random service _ _ _ _ Hloop) as [Hraces Hinv].
  pose proof (daily_loop_fields _ _ _ _ Hperf) as Hfields.
  apply daily_loop_chained in Hperf as [Hdates _].
  split.
  - eapply Forall_impl; [exact Hfields|].
    intros entry (day & Hday & -> & -> & -> & -> & -> & -> & _).
    specialize (Hinv (DailyPerformance.date entry)). rewrite Hday in Hinv.
    exact Hinv.
  - intros bet Hin.
    rewrite Forall_forall in Hraces. destruct (Hraces bet Hin) as [race Hrace].
    specialize (Hinv (Race.race_date race)).
    assert (Hon : bet ∈ bets_on (Race.race_date race) (bets st)).
    { unfold bets_on. apply list_elem_of_filter. split; [|exact Hin].
      now rewrite Hrace. }
    destruct (daily_results st !! Race.race_date race) as [day|] eqn:Hday.
    2: { rewrite Hinv in Hon. now apply not_elem_of_nil in Hon. }
    assert (Hkey : Race.race_date race
                   ∈ map DailyPerformance.date
                       (StrategyPerformance.daily_performance performance)).
    { rewrite Hdates. unfold sorted_dates. rewrite merge_sort_Permutation.
      apply elem_of_elements, elem_of_dom. now exists day. }
    apply list_elem_of_fmap in Hkey as (entry & Hdate & Hentry).
    exists entry. split; [exact Hentry|]. rewrite Hrace. cbn. now rewrite Hdate.
Qed.

(** Each daily entry accounts for the bets placed on the races of its
    date, of which there is at least one: it counts them, counts the won
    ones, its won and lost counts add up to the total, and its turnover,
    liability and profit are the sums of their stakes, liabilities and
    profits.  Every bet falls on the date of some entry. *)
Theorem run_backtest_daily_accounting bets_ performance :
  run_backtest random races runners strategy_rules stake_mgmt
    initial_bankroll = Ok (bets_, performance) ->
  Forall (fun entry =>
            let day_bets := bets_on (DailyPerformance.date entry) bets_ in
            day_bets <> [] /\
            DailyPerformance.total_bets entry = Z.of_nat (length day_bets) /\
            DailyPerformance.won_bets entry
              = Z.of_nat (length (filter (fun b => Bet.result b = Some WON)
                                         day_bets)) /\
            (DailyPerformance.won_bets entry + DailyPerformance.lost_bets entry
             = DailyPerformance.total_bets entry)%Z /\
            DailyPerformance.turnover entry == py_sum (map Bet.stake day_bets) /\
            DailyPerformance.liability entry
              == py_sum (map Bet.liability day_bets) /\
            DailyPerformance.profit_loss entry
              == py_sum (map Bet.profit_loss day_bets))
         (StrategyPerformance.daily_performance performance) /\
  (forall bet, bet ∈ bets_ ->
     exists entry,
       entry ∈ StrategyPerformance.daily_performance performance /\
       Race.race_date <$> Bet.race bet = Some (DailyPerformance.date entry)).
Proof. apply daily_entries_account. Qed.

End RunDaily.

(** ** Bounds of the drawdown *)

Lemma drawdowns_from_bounded values : forall peak,
  0 < peak -> Forall (fun v => 0 <= v) values ->
  Forall (fun dd => dd <= 100) (drawdowns_from peak values).
Proof.
  induction values as [|value rest IH]; intros peak Hpeak Hvalues;
    cbn [drawdowns_from]; [constructor|].
  apply Forall_cons in Hvalues as [Hvalue Hrest].
  set (peak' := py_max peak value).
  assert (Hpeak' : 0 < peak').
  { unfold peak', py_max. destruct (Qgtb value peak) eqn:Hgt; [|exact Hpeak].
    apply Qgtb_true in Hgt. lra. }
  constructor; [|now apply IH].
  assert (Hratio : (peak' - value) / peak' <= 1) by (apply Qle_shift_div_r; lra).
  lra.
Qed.

Lemma max_drawdown_in_range first rest :
  0 < first -> Forall (fun v => 0 <= v) rest ->
  exists dd,
    calculate_max_drawdown (first :: rest) = Ok dd /\ 0 <= dd /\ dd <= 100.
Proof.
  intros Hpos Hrest.
  destruct (drawdown_loop_maximum (first :: rest) 0 first Hpos)
    as (m & Hm & Hlo & _ & Hex).
  assert (Hhi : m <= 100).
  { destruct Hex as [->|Hex]; [discriminate|].
    apply Exists_exists in Hex as (dd & Hin & <-).
    assert (Hall : Forall (fun v => 0 <= v) (first :: rest))
      by (constructor; [lra | exact Hrest]).
    pose proof (drawdowns_from_bounded (first :: rest) first Hpos Hall) as Hb.
    rewrite Forall_forall in Hb. now apply Hb. }
  unfold calculate_max_drawdown.
  destruct (length (first :: rest) <? 2)%nat.
  { exists 0. repeat split; discriminate. }
  rewrite Hm. cbn [mbind result_bind].
  exists (py_round2 m). split; [reflexivity|].
  pose proof (py_round2_monotone 0 m Hlo) as H0.
  pose proof (py_round2_monotone m 100 Hhi) as H100.
  assert (E0 : py_round2 0 == 0) by reflexivity.
  assert (E100 : py_round2 100 == 100) by reflexivity.
  lra.
Qed.

(** On a curve that starts above 0 and never falls below 0 the drawdown
    is computed and lies between 0 and 100. *)
Theorem max_drawdown_bounds first rest :
  0 < first -> Forall (fun v => 0 <= v) rest ->
  exists dd,
    calculate_max_drawdown (first :: rest) = Ok dd /\ 0 <= dd /\ dd <= 100.
Proof. apply max_drawdown_in_range. Qed.

Lemma max_drawdown_bounds_witness :
  0 < 100000 /\
  exists dd,
    calculate_max_drawdown [100000; 0; 50000] = Ok dd /\ 0 <= dd /\ dd <= 100.
Proof.
  split; [reflexivity|].
  apply (max_drawdown_bounds 100000 [0; 50000]); [reflexivity|].
  repeat constructor; discriminate.
Defined.

(** ** The bankroll of a run *)

Section Multipliers.
Context `{PyRuntime}.

(** With tables and a handicap multiplier that are not negative, the
    multiplier of a race is not negative. *)
Lemma calculate_stake_multiplier_nonneg self race m :
  adjustments_nonneg (rules self) ->
  0 <= handicap_stake_multiplier (rules self) ->
  calculate_stake_multiplier self race = Ok m -> 0 <= m.
Proof.
  intros (Hgoing & Htrack & Hmonth) Hhcap. unfold calculate_stake_multiplier.
  destruct (strptime _ _) as [d|]; [|discriminate].
  assert (Hg : 0 <= default 1 (going_adjustments (rules self) !! Race.going race)).
  { destruct (going_adjustments (rules self) !! Race.going race) as [g|] eqn:Hl;
      cbn; [exact (Hgoing _ _ Hl) | discriminate]. }
  set (g := default 1 (going_adjustments (rules self) !! Race.going race)) in *.
  assert (H1 : 0 <= 1 * g) by lra.
  destruct (track_adjustments (rules self) !! Race.track_direction race)
    as [t|] eqn:Ht;
    [pose proof (Htrack _ _ Ht) as Ht0;
     pose proof (Qmult_le_0_compat _ _ H1 Ht0) as H2 | pose proof H1 as H2];
  (destruct (monthly_adjustments (rules self) !! month d) as [mo|] eqn:Hmo;
    [pose proof (Hmonth _ _ Hmo) as Hmo0;
     pose proof (Qmult_le_0_compat _ _ H2 Hmo0) as H3 | pose proof H2 as H3]);
  (destruct (Race.is_handicap race && negb (exclude_handicaps (rules self)));
    intros [= <-]; [apply Qmult_le_0_compat; assumption | exact H3]).
Qed.

End Multipliers.

Section RunBankroll.
Context `{PyRuntime}.
Variable random : nat -> Q.
Variables (races : list Race.t) (runners : list Runner.t).
Variables (strategy_rules : StrategyRules) (stake_mgmt : StakeManagement).
Variable initial_bankroll : Q.

Hypothesis rules_valid : StrategyRules_valid strategy_rules.
Hypothesis stake_valid : StakeManagement_valid stake_mgmt.
Hypothesis tables_nonneg : adjustments_nonneg strategy_rules.
Hypothesis bankroll_positive : 0 < initial_bankroll.

Let service := Build_StrategyService strategy_rules stake_mgmt.

(** What the loop keeps: the bankroll is the running total of the bets,
    it is positive and so is every point of the equity curve, and no
    stake or liability is negative. *)
Lemma backtest_races_solvent st :
  backtest_races random service (group_runners runners)
    {| bets := []; daily_results := ∅; bankroll := initial_bankroll; draws := 0 |}
    races = Ok st ->
  bankroll st = running_total initial_bankroll (bets st) /\
  0 < bankroll st /\
  Forall (fun v => 0 < v) (equity_from initial_bankroll (bets st)) /\
  Forall (fun b => 0 <= Bet.stake b /\ 0 <= Bet.liability b) (bets st).
Proof.
  apply (backtest_races_invariant random service (group_runners runners)
           (fun st =>
              bankroll st = running_total initial_bankroll (bets st) /\
              0 < bankroll st /\
              Forall (fun v => 0 < v) (equity_from initial_bankroll (bets st)) /\
              Forall (fun b => 0 <= Bet.stake b /\ 0 <= Bet.liability b)
                     (bets st))).
  2: { cbn. repeat split; [exact bankroll_positive | constructor..]. }
  intros st0 race st' (Htotal & Hpos & Hcurve & Hstakes) Hstep.
  destruct (backtest_race_step _ _ _ _ _ _ Hstep)
    as [[_ ->]|(_ & bet & result & -> & _ & _ & _ & _ &
                (m & Hm & Hsize) & Hbet)];
    [repeat split; assumption|].
  destruct Hbet as (_ & _ & _ & _ & Hmin & _ & Hpl).
  assert (Hodds : 1 < Bet.odds bet).
  { pose proof (min_odds_ge _ rules_valid).
    change (min_odds strategy_rules <= Bet.odds bet) in Hmin. lra. }
  assert (Hm0 : 0 <= m).
  { apply (calculate_stake_multiplier_nonneg service race m);
      [exact tables_nonneg | exact (handicap_ge _ rules_valid) | exact Hm]. }
  destruct (calculate_stake_signs service (bankroll st0) (Bet.odds bet) m)
    as (s1 & l1 & Hcall1 & Hs & Hl); try assumption; try lra;
    [pose proof (base_stake_ge _ stake_valid); cbn; lra
    |pose proof (max_liability_ge _ stake_valid); cbn; lra|].
  destruct (calculate_stake_loss_bound service (bankroll st0) (Bet.odds bet) m)
    as (s2 & l2 & Hcall2 & Hloss); try assumption;
    [exact (max_liability_le _ stake_valid)|].
  rewrite Hsize in Hcall1, Hcall2.
  injection Hcall1 as <- <-. injection Hcall2 as <- <-.
  assert (Hnew : 0 < bankroll st0 + Bet.profit_loss bet).
  { destruct Hpl as [[_ ->]|[_ ->]]; lra. }
  unfold settle. cbn [bets bankroll].
  rewrite equity_from_snoc, <- Htotal.
  repeat split.
  - unfold running_total. rewrite foldl_app. cbn. now rewrite Htotal.
  - exact Hnew.
  - apply Forall_app. split; [exact Hcurve|]. now repeat constructor.
  - apply Forall_app. split; [exact Hstakes|]. now repeat constructor.
Qed.

(** Under rules and a stake management that satisfy their schemas, with
    tables that hold no negative entry and from a positive bankroll, a run
    never goes bust: every point of its equity curve is positive, so is
    the final bankroll, the reported drawdown lies between 0 and 100, and
    no bet has a negative stake or liability. *)
Theorem run_backtest_solvent bets_ performance :
  run_backtest random races runners strategy_rules stake_mgmt
    initial_bankroll = Ok (bets_, performance) ->
  Forall (fun v => 0 < v) (equity_curve initial_bankroll bets_) /\
  0 < initial_bankroll + StrategyPerformance.total_profit_loss performance /\
  0 <= StrategyPerformance.max_drawdown performance /\
  StrategyPerformance.max_drawdown performance <= 100 /\
  Forall (fun b => 0 <= Bet.stake b /\ 0 <= Bet.liability b) bets_.
Proof.
  intros Hrun.
  destruct (run_backtest_inv random _ _ _ _ _ _ _ Hrun)
    as (st & Hloop & <- & Hperf).
  destruct (backtest_races_solvent st Hloop) as (_ & Hpos & Hcurve & Hstakes).
  destruct (performance_of_fields _ _ _ Hperf)
    as (_ & _ & _ & _ & Hpl & _ & _ & Hdd & _).
  destruct (max_drawdown_in_range initial_bankroll
              (equity_from initial_bankroll (bets st)) bankroll_positive)
    as (dd & Hdd' & Hlo & Hhi).
  { eapply Forall_impl; [exact Hcurve|]. intros v Hv. cbn in Hv. lra. }
  fold (equity_curve initial_bankroll (bets st)) in Hdd'.
  rewrite Hdd in Hdd'. injection Hdd' as <-.
  repeat split; try assumption.
  - unfold equity_curve. constructor; assumption.
  - rewrite Hpl. lra.
Qed.

End RunBankroll.

(** ** The Sharpe ratio of won bets *)

(** A sum of [n] copies of an integer. *)
Lemma py_sum_constant (c : Z) xs :
  Forall (fun x => x == inject_Z c) xs ->
  py_sum xs == inject_Z c * inject_Z (Z.of_nat (length xs)).
Proof.
  induction xs as [|x xs IH] using rev_ind; intros Hall.
  - unfold py_sum. cbn. ring.
  - apply Forall_app in Hall as [Hxs Hx]. apply Forall_cons in Hx as [Hx _].
    rewrite py_sum_snoc, length_app, (IH Hxs), Hx. cbn [length].
    rewrite Nat2Z.inj_add, inject_Z_plus. change (inject_Z (Z.of_nat 1)) with 1.
    ring.
Qed.

Lemma np_mean_constant (c : Z) xs :
  xs <> [] -> Forall (fun x => x == inject_Z c) xs -> np_mean xs == inject_Z c.
Proof.
  intros Hne Hall. unfold np_mean. rewrite (py_sum_constant c xs Hall).
  assert (Hlen : ~ inject_Z (Z.of_nat (length xs)) == 0).
  { destruct xs as [|x xs]; [contradiction|]. cbn [length].
    change 0 with (inject_Z 0). rewrite inject_Z_injective. lia. }
  field. exact Hlen.
Qed.

(** The returns of won bets: each is its stake over itself. *)
Lemma bet_returns_won bets_ :
  Forall (fun b => Bet.profit_loss b = Bet.stake b) bets_ ->
  exists rs, bet_returns bets_ = Ok rs /\ Forall (fun r => r == 1) rs.
Proof.
  induction 1 as [|b rest Hb _ (rs & Hrs & Hall)]; cbn [bet_returns].
  - exists []. split; [reflexivity | constructor].
  - destruct (Qgtb (Bet.stake b) 0) eqn:Hgt; [|exists rs; split; assumption].
    apply Qgtb_true in Hgt. rewrite py_div_nonzero by lra.
    cbn [mbind result_bind]. rewrite Hrs. cbn [mbind result_bind].
    eexists. split; [reflexivity|]. constructor; [|exact Hall].
    rewrite Hb. field. lra.
Qed.

Section Sharpe.
Context `{PyRuntime}.
Hypothesis np_sqrt_zero : forall x, x == 0 -> np_sqrt x == 0.

(** When every bet is won, each returning its stake, every return is 1,
    the returns have mean 1 and no deviation, and the Sharpe ratio is 0:
    a run without a lost bet reports no risk-adjusted return. *)
Theorem sharpe_of_won_bets bets_ :
  Forall (fun b => Bet.profit_loss b = Bet.stake b) bets_ ->
  calculate_sharpe_ratio bets_ = Ok 0.
Proof.
  intros Hall. unfold calculate_sharpe_ratio.
  destruct (length bets_ <? 2)%nat; [reflexivity|].
  destruct (bet_returns_won bets_ Hall) as (rs & -> & Hrs).
  cbn [mbind result_bind].
  destruct (length rs <? 2)%nat eqn:Hlen; [reflexivity|].
  assert (Hne : rs <> []) by (intros ->; discriminate Hlen).
  assert (Hstd : np_std rs == 0).
  { unfold np_std. apply np_sqrt_zero.
    pose proof (np_mean_constant 1 rs Hne Hrs) as Hmean.
    apply (np_mean_constant 0).
    - destruct rs; [contradiction | discriminate].
    - apply Forall_forall. intros sq Hin.
      apply list_elem_of_fmap in Hin as (r & -> & Hr).
      rewrite Forall_forall in Hrs. rewrite (Hrs r Hr), Hmean.
      reflexivity. }
  apply Qeq_bool_iff in Hstd. now rewrite Hstd.
Qed.

End Sharpe.

(** ** Runs that return *)

Section Returns.
Context `{PyRuntime}.
Variable random : nat -> Q.
Variable service : StrategyService.
Variable race_runners : gmap string (list Runner.t).
Hypothesis rules_valid : StrategyRules_valid (rules service).

Lemma backtest_race_returns st race :
  (race_qualifies service race_runners race = true ->
   is_Some (strptime (Race.race_date race) "%Y-%m-%d") /\
   is_Some (strptime (Race.race_date race +:+ " " +:+ Race.race_time race)
                     "%Y-%m-%d %H:%M")) ->
  returns (backtest_race random service race_runners st race).
Proof.
  unfold race_qualifies, backtest_race. intros Hparse.
  destruct (find_favorite race_runners race) as [fav|]; [|exact I].
  destruct (evaluate_race_sizing service rules_valid race fav (bankroll st))
    as [[_ ->]|(odds & Hq & Hodds & Hone & ->)]; [exact I|].
  destruct (Hparse Hq) as [[d Hd] [at_ Hat]].
  unfold calculate_stake_multiplier. rewrite Hd. cbn [mbind result_bind].
  match goal with
  | |- context [calculate_stake service (bankroll st) odds ?m] =>
      pose proof (calculate_stake_returns service (bankroll st) odds m Hone)
        as Hret;
      destruct (calculate_stake service (bankroll st) odds m) as [[s l]|e]
  end; [|contradiction].
  cbn [mbind result_bind]. rewrite Hodds, Hat. exact I.
Qed.

Lemma backtest_races_return races : forall st,
  Forall (fun race =>
            race_qualifies service race_runners race = true ->
            is_Some (strptime (Race.race_date race) "%Y-%m-%d") /\
            is_Some (strptime (Race.race_date race +:+ " " +:+ Race.race_time race)
                              "%Y-%m-%d %H:%M")) races ->
  returns (backtest_races random service race_runners st races).
Proof.
  induction races as [|race rest IH]; intros st Hall; cbn; [exact I|].
  apply Forall_cons in Hall as [Hrace Hrest].
  pose proof (backtest_race_returns st race Hrace) as Hstep.
  destruct (backtest_race random service race_runners st race) as [st'|e];
    [|contradiction].
  cbn [mbind result_bind]. now apply IH.
Qed.

End Returns.

(** Under rules that satisfy their schema and from a positive bankroll, a
    backtest returns its bets and its performance as soon as the date and
    the time of every qualifying race parse; the races that do not
    qualify may carry any date. *)
Theorem run_backtest_returns `{PyRuntime} (random : nat -> Q)
    races runners strategy_rules stake_mgmt initial_bankroll :
  StrategyRules_valid strategy_rules ->
  0 < initial_bankroll ->
  Forall (fun race =>
            race_qualifies (Build_StrategyService strategy_rules stake_mgmt)
              (group_runners runners) race = true ->
            is_Some (strptime (Race.race_date race) "%Y-%m-%d") /\
            is_Some (strptime (Race.race_date race +:+ " " +:+ Race.race_time race)
                              "%Y-%m-%d %H:%M")) races ->
  returns (run_backtest random races runners strategy_rules stake_mgmt
             initial_bankroll).
Proof.
  intros Hvalid Hpos Hparse. unfold run_backtest.
  match goal with
  | |- context [backtest_races random ?service ?rr ?st races] =>
      pose proof (backtest_races_return random service rr Hvalid races st Hparse)
        as Hloop;
      destruct (backtest_races random service rr st races) as [st'|e]
  end; [|contradiction].
  cbn [mbind result_bind].
  pose proof (performance_of_returns initial_bankroll st' Hpos) as Hperf.
  destruct (performance_of initial_bankroll st'); [exact I | contradiction].
Qed.

(** ** The properties above at concrete inputs *)

Lemma Example_rules_valid : StrategyRules_valid Example.default_rules.
Proof. split; cbn; try lia; discriminate. Qed.

Lemma Example_stake_valid : StakeManagement_valid Example.default_stake_management.
Proof. split; cbn; discriminate. Qed.

Lemma Example_tables_nonneg : adjustments_nonneg Example.default_rules.
Proof.
  repeat split; apply map_Forall_lookup; intros k v Hk;
    cbn in Hk;
    repeat (apply lookup_insert_Some in Hk as [[_ <-]|[_ Hk]]; [discriminate|]);
    now rewrite lookup_empty in Hk.
Qed.

Lemma Example_np_sqrt_zero x : x == 0 -> Example.np_sqrt x == 0.
Proof.
  intros Hx. unfold Example.np_sqrt.
  assert (Hnum : Qnum x = 0%Z).
  { unfold Qeq in Hx. cbn in Hx. lia. }
  rewrite Hnum. cbn. reflexivity.
Qed.

(** Takes the bets and the performance of the example run. *)
Ltac example_run bets performance Hrun :=
  destruct Example.run as [[bets performance]|?] eqn:Hrun;
  [|vm_compute in Hrun; discriminate Hrun].

Lemma evaluate_race_unparsed_date_witness :
  @strptime Example.runtime (Race.race_date Example.race1_day_first) "%Y-%m-%d"
    = None /\
  @evaluate_race Example.runtime Example.service Example.race1_day_first
     Example.favorite1 100000 = Raise ValueError.
Proof.
  split; [reflexivity|].
  rewrite (@evaluate_race_unparsed_date Example.runtime Example.service
             Example.race1_day_first Example.favorite1 100000 eq_refl).
  reflexivity.
Defined.

Lemma evaluate_race_qualifying_witness :
  exists odds multiplier stake liability,
    Runner.bsp_odds Example.favorite1 = Some odds /\
    @calculate_stake_multiplier Example.runtime Example.service Example.race1
      = Ok multiplier /\
    calculate_stake Example.service 100000 odds multiplier = Ok (stake, liability) /\
    stake == 500.
Proof.
  destruct (@evaluate_race_qualifying Example.runtime Example.service
              Example.race1 Example.favorite1 100000
              {| year := 2024; month := 6; day := 15; hour := 0; minute := 0 |}
              Example_rules_valid eq_refl eq_refl)
    as (odds & multiplier & stake & liability & Hodds & Hm & Hstake & _).
  exists odds, multiplier, stake, liability.
  repeat split; try assumption.
  injection Hodds as <-. vm_compute in Hm. injection Hm as <-.
  vm_compute in Hstake. injection Hstake as <- _. reflexivity.
Defined.

Lemma run_backtest_bets_settled_witness :
  exists bets_ performance,
    Example.run = Ok (bets_, performance) /\
    length bets_ = 2%nat /\
    Forall (settled_bet Example.default_rules) bets_.
Proof.
  example_run bets_ performance Hrun.
  exists bets_, performance. split; [reflexivity|]. split.
  - vm_compute in Hrun. injection Hrun as <- _. reflexivity.
  - exact (@run_backtest_bets_settled Example.runtime Example.random _ _ _ _ _
             _ _ Hrun).
Defined.

Lemma run_backtest_bet_ids_witness :
  exists bets_ performance bet,
    Example.run = Ok (bets_, performance) /\
    bets_ !! 1%nat = Some bet /\ Bet.id bet = "bt_2".
Proof.
  example_run bets_ performance Hrun.
  destruct (bets_ !! 1%nat) as [bet|] eqn:Hbet.
  2: { vm_compute in Hrun. injection Hrun as <- _. discriminate Hbet. }
  exists bets_, performance, bet. split; [reflexivity|]. split; [exact Hbet|].
  exact (@run_backtest_bet_ids Example.runtime Example.random _ _ _ _ _
           _ _ 1%nat bet Hrun Hbet).
Defined.

Lemma run_backtest_bets_on_qualifying_witness :
  exists bets_ performance,
    Example.run = Ok (bets_, performance) /\
    map Bet.race_id bets_ = ["r1"; "r2"].
Proof.
  example_run bets_ performance Hrun.
  exists bets_, performance. split; [reflexivity|].
  rewrite (@run_backtest_bets_on_qualifying Example.runtime Example.random _ _ _
             _ _ _ _ Hrun).
  reflexivity.
Defined.

Lemma run_backtest_counts_witness :
  exists bets_ performance,
    Example.run = Ok (bets_, performance) /\
    StrategyPerformance.total_bets performance = Z.of_nat (length bets_) /\
    StrategyPerformance.win_rate performance <= 100.
Proof.
  example_run bets_ performance Hrun.
  exists bets_, performance. split; [reflexivity|].
  destruct (@run_backtest_counts Example.runtime Example.random _ _ _ _ _
              _ _ Hrun) as (Htotal & _ & _ & _ & _ & Hrate).
  split; assumption.
Defined.

Lemma run_backtest_profit_is_running_total_witness :
  exists bets_ performance,
    Example.run = Ok (bets_, performance) /\
    StrategyPerformance.total_profit_loss performance
      = running_total 100000 bets_ - 100000.
Proof.
  example_run bets_ performance Hrun.
  exists bets_, performance. split; [reflexivity|].
  apply (@run_backtest_profit_is_running_total Example.runtime Example.random
           _ _ _ _ _ _ _ Hrun).
Defined.

Lemma run_backtest_daily_accounting_witness :
  exists bets_ performance,
    Example.run = Ok (bets_, performance) /\
    forall bet, bet ∈ bets_ ->
      exists entry,
        entry ∈ StrategyPerformance.daily_performance performance /\
        Race.race_date <$> Bet.race bet = Some (DailyPerformance.date entry).
Proof.
  example_run bets_ performance Hrun.
  exists bets_, performance. split; [reflexivity|].
  apply (@run_backtest_daily_accounting Example.runtime Example.random _ _ _ _ _
           _ _ Hrun).
Defined.

Lemma run_backtest_solvent_witness :
  exists bets_ performance,
    Example.run = Ok (bets_, performance) /\
    Forall (fun v => 0 < v) (equity_curve 100000 bets_) /\
    0 < 100000 + StrategyPerformance.total_profit_loss performance.
Proof.
  example_run bets_ performance Hrun.
  exists bets_, performance. split; [reflexivity|].
  destruct (@run_backtest_solvent Example.runtime Example.random
              [Example.race1; Example.race2]
              [Example.favorite1; Example.favorite2]
              Example.default_rules Example.default_stake_management 100000
              Example_rules_valid Example_stake_valid Example_tables_nonneg
              eq_refl bets_ performance Hrun) as (Hcurve & Hfinal & _).
  split; assumption.
Defined.

Lemma sharpe_of_won_bets_witness :
  exists bets_ performance,
    Example.run = Ok (bets_, performance) /\
    length bets_ = 2%nat /\
    @calculate_sharpe_ratio Example.runtime bets_ = Ok 0.
Proof.
  example_run bets_ performance Hrun.
  exists bets_, performance. split; [reflexivity|].
  vm_compute in Hrun. injection Hrun as <- _. split; [reflexivity|].
  apply (@sharpe_of_won_bets Example.runtime Example_np_sqrt_zero).
  repeat constructor.
Defined.

Lemma run_backtest_returns_witness :
  returns Example.run.
Proof.
  apply (@run_backtest_returns Example.runtime Example.random);
    [exact Example_rules_valid | reflexivity|].
  repeat constructor; eexists; reflexivity.
Defined.

(** ** The draws of a run *)

Section Draws.
Context `{PyRuntime}.
Variable random : nat -> Q.
Variable service : StrategyService.
Variable race_runners : gmap string (list Runner.t).

(** An iteration that settles a bet takes one value from the generator,
    the next one, and settles the bet by it. *)
Lemma backtest_race_draw st race st' :
  backtest_race random service race_runners st race = Ok st' ->
  st' = st \/
  exists bet,
    bets st' = bets st ++ [bet] /\
    draws st' = S (draws st) /\
    Bet.result bet
      = Some (simulate_bet_result (Bet.odds bet) (random (draws st))).
Proof.
  unfold backtest_race.
  destruct (find_favorite race_runners race) as [fav|];
    [|intros [= <-]; now left].
  destruct (evaluate_race service race fav (bankroll st)) as [[q|]|e];
    cbn [mbind result_bind]; [|intros [= <-]; now left | discriminate].
  destruct (Runner.bsp_odds fav) as [odds|]; [|discriminate].
  destruct (strptime _ _) as [at_|]; [|discriminate].
  intros [= <-]. right. eexists. cbn. repeat split.
Qed.

End Draws.

(** The generator is read once for each bet, in order: the bet at index
    [i] of a run is settled by the [i]-th value drawn, compared with the
    winning probability of its odds. *)
Theorem run_backtest_results_follow_draws `{PyRuntime} (random : nat -> Q)
    races runners strategy_rules stake_mgmt initial_bankroll
    bets_ performance i bet :
  run_backtest random races runners strategy_rules stake_mgmt
    initial_bankroll = Ok (bets_, performance) ->
  bets_ !! i = Some bet ->
  Bet.result bet = Some (simulate_bet_result (Bet.odds bet) (random i)).
Proof.
  intros Hrun. destruct (run_backtest_inv random _ _ _ _ _ _ _ Hrun)
    as (st & Hloop & <- & _).
  revert i bet.
  assert (Hinv : draws st = length (bets st) /\
                 forall i bet, bets st !! i = Some bet ->
                   Bet.result bet
                   = Some (simulate_bet_result (Bet.odds bet) (random i))).
  { revert Hloop.
    apply (backtest_races_invariant random _ _
             (fun st => draws st = length (bets st) /\
                forall i bet, bets st !! i = Some bet ->
                  Bet.result bet
                  = Some (simulate_bet_result (Bet.odds bet) (random i)))).
    - intros st0 race st' [Hdraws Hbets] Hstep.
      destruct (backtest_race_draw _ _ _ _ _ _ Hstep)
        as [->|(bet & Hnew & Hcount & Hresult)]; [split; assumption|].
      rewrite Hnew, Hcount, length_app. cbn [length]. split; [lia|].
      intros i b Hi. apply lookup_app_Some in Hi as [Hi|[Hlen Hi]].
      + now apply Hbets.
      + destruct (i - length (bets st0))%nat as [|n] eqn:Hdiff;
          [|discriminate Hi].
        injection Hi as <-. rewrite Hresult. do 3 f_equal. lia.
    - split; [reflexivity|]. intros i b Hi. discriminate Hi. }
  apply Hinv.
Qed.

Lemma run_backtest_results_follow_draws_witness :
  exists bets_ performance bet,
    Example.run = Ok (bets_, performance) /\
    bets_ !! 1%nat = Some bet /\
    Bet.result bet
      = Some (simulate_bet_result (Bet.odds bet) (Example.random 1)).
Proof.
  example_run bets_ performance Hrun.
  destruct (bets_ !! 1%nat) as [bet|] eqn:Hbet.
  2: { vm_compute in Hrun. injection Hrun as <- _. discriminate Hbet. }
  exists bets_, performance, bet. split; [reflexivity|]. split; [exact Hbet|].
  exact (@run_backtest_results_follow_draws Example.runtime Example.random
           _ _ _ _ _ _ _ 1%nat bet Hrun Hbet).
Defined.

(** ** The daily entries of a run *)

(** C8. In the performance a backtest returns, the daily entries are in
    strictly ascending order of their dates and the first starts at the
    initial bankroll; each entry stands for the bets placed on the races
    of its date, of which there is at least one, its profit or loss is the
    sum of theirs, and it ends at its start plus that profit or loss; each
    entry starts where the one before ended; and every bet falls on the
    date of some entry. *)
Theorem daily_performance_chain `{PyRuntime} (random : nat -> Q)
    races runners strategy_rules stake_mgmt initial_bankroll
    bets_ performance :
  run_backtest random races runners strategy_rules stake_mgmt
    initial_bankroll = Ok (bets_, performance) ->
  let entries := StrategyPerformance.daily_performance performance in
  StronglySorted
    (fun a b => str_lt (DailyPerformance.date a) (DailyPerformance.date b))
    entries /\
  (forall first, head entries = Some first ->
     DailyPerformance.starting_bank first = initial_bankroll) /\
  (forall i a b, entries !! i = Some a -> entries !! S i = Some b ->
     DailyPerformance.ending_bank a = DailyPerformance.starting_bank b) /\
  Forall (fun entry =>
            let day_bets := bets_on (DailyPerformance.date entry) bets_ in
            day_bets <> [] /\
            DailyPerformance.profit_loss entry
              == py_sum (map Bet.profit_loss day_bets) /\
            DailyPerformance.ending_bank entry
              = DailyPerformance.starting_bank entry
                + DailyPerformance.profit_loss entry /\
            DailyPerformance.ending_bank entry
              == DailyPerformance.starting_bank entry
                 + py_sum (map Bet.profit_loss day_bets)) entries /\
  (forall bet, bet ∈ bets_ ->
     exists entry,
       entry ∈ entries /\
       Race.race_date <$> Bet.race bet = Some (DailyPerformance.date entry)).
Proof.
  intros Hrun entries.
  destruct (daily_entries_chained random _ _ _ _ _ _ _ Hrun)
    as (Hsorted & Hfirst & Hchain & Hends).
  destruct (daily_entries_account random _ _ _ _ _ _ _ Hrun)
    as (Hdays & Hbets).
  repeat apply conj; try assumption.
  apply Forall_forall. intros entry Hin.
  rewrite Forall_forall in Hends, Hdays.
  specialize (Hends entry Hin).
  destruct (Hdays entry Hin) as (Hne & _ & _ & _ & _ & _ & Hpl).
  cbn zeta in *. repeat split; try assumption.
  rewrite Hends, Hpl. reflexivity.
Qed.

(** The statement of C8 holds at a concrete input: two bets, on two days
    given in descending order. *)
Lemma daily_performance_chain_witness :
  exists bets_ performance,
    Example.run = Ok (bets_, performance) /\
    map DailyPerformance.date (StrategyPerformance.daily_performance performance)
      = ["2024-06-14"; "2024-06-15"] /\
    StronglySorted
      (fun a b => str_lt (DailyPerformance.date a) (DailyPerformance.date b))
      (StrategyPerformance.daily_performance performance) /\
    Forall (fun entry =>
              bets_on (DailyPerformance.date entry) bets_ <> [] /\
              DailyPerformance.ending_bank entry
                == DailyPerformance.starting_bank entry
                   + py_sum (map Bet.profit_loss
                               (bets_on (DailyPerformance.date entry) bets_)))
           (StrategyPerformance.daily_performance performance).
Proof.
  example_run bets_ performance Hrun.
  exists bets_, performance. split; [reflexivity|]. split.
  - vm_compute in Hrun. injection Hrun as _ <-. reflexivity.
  - destruct (@daily_performance_chain Example.runtime Example.random _ _ _ _ _
                _ _ Hrun) as (Hsorted & _ & _ & Hdays & _).
    split; [exact Hsorted|].
    eapply Forall_impl; [exact Hdays|].
    intros entry (Hne & _ & _ & Hend). split; assumption.
Defined.
